(** * aws-es-proxy: a shallow embedding of [aws-es-proxy.go]

    The proxy is one Go file.  Its own functions ([getSigner],
    [getCredentials], [copyHeaders], [replaceBody], [parseEndpoint],
    [ServeHTTP], [main]) are embedded below as Rocq functions.  The parts of
    the Go standard library and of the AWS SDK they call are either modelled
    concretely (strings, byte readers, header maps, the two regular
    expressions, durations) or, where their result is decided outside the
    program (URL parsing and printing, the clock, the ambient credential
    lookup, the signature computation, the network), taken from an
    environment [Env].

    Go strings are byte strings: they are modelled by [string] (a list of
    8-bit [ascii]); [[]byte] is [list byte]. *)

From Stdlib Require Import ZArith Lia Floats Ascii.
From stdpp Require Import gmap strings list.

Local Open Scope Z_scope.

(** Go's [[]byte]. *)
Abbreviation bytes := (list Byte.byte).

(* ===================================================================== *)
(** * Part I: definitions                                                 *)
(* ===================================================================== *)

(** ** Errors, results and control outcomes *)

(** A Go [error] value; only its text ([err.Error()]) is ever observed. *)
Record error := errors_New { Error : string }.

Inductive result (A : Type) :=
| Ok (a : A)
| Err (e : error).
Arguments Ok {A} a.
Arguments Err {A} e.

(** How a piece of code ends: it returns, the process exits
    ([log.Fatal] and [os.Exit]), or the goroutine panics. *)
Inductive Outcome (A : Type) :=
| Done (a : A)
| Exit (code : Z)
| Panicked (msg : string).
Arguments Done {A} a.
Arguments Exit {A} code.
Arguments Panicked {A} msg.

(** ** Package [strings] *)

Module strings.

(** [strings.Split(s, sep)] for a one-byte separator: the pieces of [s]
    between the occurrences of [sep]; always at least one piece. *)
Fixpoint splitAcc (sep : ascii) (cur : string) (s : string) : list string :=
  match s with
  | EmptyString => [cur]
  | String c s' =>
      if Ascii.eqb c sep
      then cur :: splitAcc sep EmptyString s'
      else splitAcc sep (cur +:+ String c EmptyString) s'
  end.

Definition Split (s : string) (sep : ascii) : list string :=
  splitAcc sep EmptyString s.

(** [strings.Replace(s, old, new, n)] for one-byte [old] and [new]: the
    first [n] occurrences are replaced, all of them when [n < 0]. *)
Fixpoint Replace (s : string) (old new : ascii) (n : Z) : string :=
  match s with
  | EmptyString => EmptyString
  | String c s' =>
      if Ascii.eqb c old && negb (n =? 0)
      then String new (Replace s' old new (if n <? 0 then n else n - 1))
      else String c (Replace s' old new n)
  end.

End strings.

(** ** Package [regexp] *)

Module regexp.

Definition newline : ascii := "010"%char.

(** The syntax trees the two patterns of the proxy compile to.  Go matches
    UTF-8 sequences where this model matches bytes; the literals of the
    two patterns are ASCII and [.] takes any sequence but the newline, so
    the spans found are the same. *)
Inductive Regexp :=
| EmptyMatch
| Literal (c : ascii)
| AnyCharNotNL
| Concat (a b : Regexp)
| Alternate (a b : Regexp)
| Star (a : Regexp).

(** A literal string, as a concatenation of its bytes. *)
Fixpoint literal (s : string) : Regexp :=
  match s with
  | EmptyString => EmptyMatch
  | String c s' => Concat (Literal c) (literal s')
  end.

(** The greedy star: [step] is the matcher of the starred expression.
    An iteration has to consume input, so [fuel], the length of the input
    at the start, bounds the number of iterations. *)
Fixpoint iterate (step : (string -> option string) -> string -> option string)
  (k : string -> option string) (fuel : nat) (s : string) : option string :=
  match fuel with
  | O => k s
  | S fuel' =>
      match step (fun t =>
                    if (String.length t <? String.length s)%nat
                    then iterate step k fuel' t else None) s with
      | Some r => Some r
      | None => k s
      end
  end.

(** Leftmost-first matching: [run re k s] is the outcome that a
    backtracking search finds first when it matches [re] at the start of
    [s] and then continues with [k] on the rest.  Alternation prefers its
    left branch and the star is greedy.  The result is the input left
    after the whole match. *)
Fixpoint run (re : Regexp) (k : string -> option string) (s : string)
  {struct re} : option string :=
  match re with
  | EmptyMatch => k s
  | Literal c =>
      match s with
      | String x t => if Ascii.eqb x c then k t else None
      | EmptyString => None
      end
  | AnyCharNotNL =>
      match s with
      | String x t => if Ascii.eqb x newline then None else k t
      | EmptyString => None
      end
  | Concat a b => run a (run b k) s
  | Alternate a b =>
      match run a k s with
      | Some r => Some r
      | None => run b k s
      end
  | Star a => iterate (run a) k (String.length s) s
  end.

(** The text of the leftmost match of [re] in [s], if there is one. *)
Fixpoint find (re : Regexp) (s : string) : option string :=
  match run re Some s with
  | Some rest =>
      Some (String.substring 0 (String.length s - String.length rest) s)
  | None =>
      match s with
      | EmptyString => None
      | String _ s' => find re s'
      end
  end.

(** [re.FindString(s)]: the leftmost match, or the empty string. *)
Definition FindString (re : Regexp) (s : string) : string :=
  default EmptyString (find re s).

End regexp.

(** [regexp.Compile("{.*}")]: an opening brace that starts no repetition
    count is a literal. *)
Definition regex : regexp.Regexp :=
  regexp.Concat (regexp.Literal "{")
    (regexp.Concat (regexp.Star regexp.AnyCharNotNL) (regexp.Literal "}")).

(** [regexp.Compile("_msearch|_bulk")]. *)
Definition regEx : regexp.Regexp :=
  regexp.Alternate (regexp.literal "_msearch") (regexp.literal "_bulk").

(** Lines 164 to 176 of [ServeHTTP]: the query summary computed from the
    request dump. *)
Definition extractQuery (dump : bytes) : string :=
  let rawQuery := String.string_of_list_byte dump in
  let rawQuery := strings.Replace rawQuery regexp.newline " " (-1) in
  let queryEx := regexp.FindString regEx rawQuery in
  if (String.length queryEx =? 0)%nat
  then regexp.FindString regex rawQuery
  else EmptyString.

(** ** Package [time] *)

Module time.

(** An instant, in nanoseconds since the zero [Time] (1 January of year
    1); only wall-clock readings are modelled. *)
Definition Time := Z.

(** A [Duration] is a signed 64-bit count of nanoseconds. *)
Definition Duration := Z.

Definition minDuration : Duration := - 2 ^ 63.
Definition maxDuration : Duration := 2 ^ 63 - 1.
Definition Second : Duration := 1000000000.

(** [t.Sub(u)]: the difference, saturated to the range of [Duration]. *)
Definition Sub (t u : Time) : Duration :=
  let d := t - u in
  if d <? minDuration then minDuration
  else if maxDuration <? d then maxDuration
  else d.

(** Conversion [float64(n)] of an integer below 2^63 in absolute value. *)
Definition float64 (n : Z) : float :=
  if n <? 0
  then PrimFloat.opp (PrimFloat.of_uint63 (Uint63.of_Z (- n)))
  else PrimFloat.of_uint63 (Uint63.of_Z n).

(** [d.Seconds()]: whole seconds plus the remaining nanoseconds over
    1e9; the integer division truncates toward zero. *)
Definition Seconds (d : Duration) : float :=
  let sec := Z.quot d Second in
  let nsec := Z.rem d Second in
  (float64 sec + float64 nsec / 1e9)%float.

End time.

(** ** Packages [io], [io/ioutil] and [bytes] *)

Module io.

(** A byte stream waiting to be read: it delivers [pending] and then
    ends, with end of file ([failure = None]) or with a read error. *)
Record Reader := { pending : bytes; failure : option error }.

(** [bytes.NewReader(b)]: reading it gives [b], then end of file. *)
Definition NewReader (b : bytes) : Reader :=
  {| pending := b; failure := None |}.

(** The stream once everything has been read from it. *)
Definition drained (r : Reader) : Reader :=
  {| pending := []; failure := failure r |}.

(** [ioutil.ReadAll(r)]: the bytes read until end of file or until the
    first error, and that error; end of file is not an error. *)
Definition ReadAll (r : Reader) : bytes * option error * Reader :=
  (pending r, failure r, drained r).

(** [io.Copy(&buf, src)] into an empty buffer: the buffer's content and
    the first read error, if any. *)
Definition Copy (src : Reader) : bytes * option error :=
  (pending src, failure src).

End io.

(** ** Package [net/url] *)

Module url.

Record URL := {
  Scheme : string;
  Opaque : string;
  User : option string;
  Host : string;
  Path : string;
  RawPath : string;
  ForceQuery : bool;
  RawQuery : string;
  Fragment : string
}.

Definition set_Scheme (x : string) (u : URL) : URL :=
  {| Scheme := x; Opaque := Opaque u; User := User u; Host := Host u;
     Path := Path u; RawPath := RawPath u; ForceQuery := ForceQuery u;
     RawQuery := RawQuery u; Fragment := Fragment u |}.

Definition set_Host (x : string) (u : URL) : URL :=
  {| Scheme := Scheme u; Opaque := Opaque u; User := User u; Host := x;
     Path := Path u; RawPath := RawPath u; ForceQuery := ForceQuery u;
     RawQuery := RawQuery u; Fragment := Fragment u |}.

End url.

(** ** Package [net/textproto] *)

Module textproto.

Definition isLower (c : ascii) : bool :=
  (97 <=? nat_of_ascii c)%nat && (nat_of_ascii c <=? 122)%nat.
Definition isUpper (c : ascii) : bool :=
  (65 <=? nat_of_ascii c)%nat && (nat_of_ascii c <=? 90)%nat.
Definition isDigit (c : ascii) : bool :=
  (48 <=? nat_of_ascii c)%nat && (nat_of_ascii c <=? 57)%nat.

(** The bytes of an HTTP token. *)
Definition validHeaderFieldByte (c : ascii) : bool :=
  isLower c || isUpper c || isDigit c ||
  match c with
  | "!" | "#" | "$" | "%" | "&" | "'" | "*" | "+" | "-" | "." | "^" | "_"
  | "`" | "|" | "~" => true
  | _ => false
  end%char.

Definition toUpper (c : ascii) : ascii :=
  if isLower c then ascii_of_nat (nat_of_ascii c - 32) else c.
Definition toLower (c : ascii) : ascii :=
  if isUpper c then ascii_of_nat (nat_of_ascii c + 32) else c.

Fixpoint allValid (s : string) : bool :=
  match s with
  | EmptyString => true
  | String c s' => validHeaderFieldByte c && allValid s'
  end.

(** Upper case at the start and after each dash, lower case elsewhere. *)
Fixpoint canonCase (upper : bool) (s : string) : string :=
  match s with
  | EmptyString => EmptyString
  | String c s' =>
      let c' := if upper then toUpper c else toLower c in
      String c' (canonCase (Ascii.eqb c' "-") s')
  end.

(** [textproto.CanonicalMIMEHeaderKey(s)]: a key with a byte that is not
    a token byte (a space, for one) is returned as it is. *)
Definition CanonicalMIMEHeaderKey (s : string) : string :=
  if allValid s then canonCase true s else s.

End textproto.

(** ** Package [net/http] *)

Module http.

(** [http.Header] is [map[string][]string]. *)
Abbreviation Header := (gmap string (list string)).

(** [h.Add(key, value)]: append to the values of the canonical key. *)
Definition Add (key value : string) (h : Header) : Header :=
  let k := textproto.CanonicalMIMEHeaderKey key in
  <[k := default [] (h !! k) ++ [value]]> h.

(** [h.Set(key, value)]: the canonical key gets the single value. *)
Definition Set_ (key value : string) (h : Header) : Header :=
  <[textproto.CanonicalMIMEHeaderKey key := [value]]> h.

(** A request; [req_Body = None] is the nil body. *)
Record Request := {
  req_Method : string;
  req_URL : url.URL;
  req_Header : Header;
  req_Body : option io.Reader;
  req_Host : string;
  req_RemoteAddr : string
}.

Definition set_Header (h : Header) (r : Request) : Request :=
  {| req_Method := req_Method r; req_URL := req_URL r; req_Header := h;
     req_Body := req_Body r; req_Host := req_Host r;
     req_RemoteAddr := req_RemoteAddr r |}.

Definition set_Body (b : option io.Reader) (r : Request) : Request :=
  {| req_Method := req_Method r; req_URL := req_URL r;
     req_Header := req_Header r; req_Body := b; req_Host := req_Host r;
     req_RemoteAddr := req_RemoteAddr r |}.

Record Response := {
  StatusCode : Z;
  resp_Header : Header;
  resp_Body : io.Reader
}.

Definition StatusOK : Z := 200.
Definition StatusBadRequest : Z := 400.

(** The reply under construction behind an [http.ResponseWriter]: the
    header map, the status line once it is written, and the body. *)
Record ResponseWriter := {
  rw_Header : Header;
  rw_status : option Z;
  rw_body : bytes
}.

(** The writer the server hands to the handler. *)
Definition newResponseWriter : ResponseWriter :=
  {| rw_Header := ∅; rw_status := None; rw_body := [] |}.

(** [w.WriteHeader(code)]: only the first call counts. *)
Definition WriteHeader (code : Z) (w : ResponseWriter) : ResponseWriter :=
  match rw_status w with
  | Some _ => w
  | None =>
      {| rw_Header := rw_Header w; rw_status := Some code;
         rw_body := rw_body w |}
  end.

(** [w.Write(b)]: writes the status 200 first if none was written. *)
Definition Write (b : bytes) (w : ResponseWriter) : ResponseWriter :=
  let w := WriteHeader StatusOK w in
  {| rw_Header := rw_Header w; rw_status := rw_status w;
     rw_body := rw_body w ++ b |}.

Definition with_Header (h : Header) (w : ResponseWriter) : ResponseWriter :=
  {| rw_Header := h; rw_status := rw_status w; rw_body := rw_body w |}.

(** A method is a non-empty HTTP token. *)
Definition validMethod (method : string) : bool :=
  negb (String.eqb method "") && textproto.allValid method.

(** [removeEmptyPort(host)]: a trailing colon without a port is dropped. *)
Fixpoint removeEmptyPort (host : string) : string :=
  match host with
  | EmptyString => EmptyString
  | String c EmptyString => if Ascii.eqb c ":" then EmptyString else host
  | String c rest => String c (removeEmptyPort rest)
  end.

End http.

(** ** The AWS SDK: credentials and the version 4 signer *)

Module credentials.
(** A [*credentials.Credentials] object, known by its identity only. *)
Record Credentials := { handle : nat }.
End credentials.

Module v4.
(** [*v4.Signer]; [Credentials = None] is the nil pointer. *)
Record Signer := NewSigner { Credentials : option credentials.Credentials }.
End v4.

(** ** What the program does to its environment *)

(** What is printed, through [log] or on standard output. *)
Inductive LogEntry :=
| LogText (s : string)
| LogRequest (method remoteAddr requestURI query : string) (status : Z)
    (took : time.Duration)
| PrintBlock (t : time.Time) (remoteAddr requestURI method : string)
    (status : Z) (took : time.Duration) (body : bytes).

(** The calls that reach outside the program, with what they returned. *)
Inductive Event :=
| EvNow (t : time.Time)
| EvNewSession (r : result (option credentials.Credentials))
| EvSign (req : http.Request) (payload : bytes) (service region : string)
    (t : time.Time)
| EvDo (req : http.Request) (r : result http.Response)
| EvLog (e : LogEntry).

(** A trace lists the events so far, the latest first. *)
Abbreviation Trace := (list Event).

(** The environment: what the libraries and the outside world answer.  An
    answer may depend on everything that happened before. *)
Class Env := {
  (** [url.Parse], [u.String()] and [u.RequestURI()] *)
  url_Parse : string -> result url.URL;
  url_String : url.URL -> string;
  url_RequestURI : url.URL -> string;
  (** the text [httputil.DumpRequest] writes for a request *)
  httputil_wire : http.Request -> bytes;
  (** what [json.Indent] leaves in its buffer *)
  json_Indent : bytes -> bytes;
  (** the reading of [time.Now()] *)
  clock : Trace -> time.Time;
  (** [session.NewSession()] and the credentials object of its
      configuration *)
  session_NewSession : Trace -> result (option credentials.Credentials);
  (** the header map of a request once [Sign] has worked on it *)
  v4_signedHeader : v4.Signer -> http.Request -> bytes -> string -> string ->
                    time.Time -> http.Header;
  (** the round trip of [http.DefaultClient] *)
  roundTrip : Trace -> http.Request -> result http.Response;
  (** the order in which a [range] visits a map *)
  rangeOrder : Trace -> http.Header -> list (string * list string);
  rangeOrder_perm : forall tr h, rangeOrder tr h ≡ₚ map_to_list h
}.

(** ** The monad of the program

    A computation runs after a history [tr]; it ends in one of the three
    ways above and adds events (the latest first), so that the history
    after it is [new ++ tr]. *)

Definition M (A : Type) : Type := Trace -> Outcome A * Trace.

Definition ret {A} (a : A) : M A := fun _ => (Done a, []).

Definition bind {A B} (c : M A) (k : A -> M B) : M B :=
  fun tr =>
    match c tr with
    | (Done a, new) =>
        match k a (new ++ tr) with
        | (o, new') => (o, new' ++ new)
        end
    | (Exit code, new) => (Exit code, new)
    | (Panicked msg, new) => (Panicked msg, new)
    end.

Notation "x <- c ;; k" := (bind c (fun x => k))
  (at level 62, c at next level, right associativity).
Notation "c ;;; k" := (bind c (fun _ => k))
  (at level 62, right associativity).

Definition emit (e : Event) : M unit := fun _ => (Done tt, [e]).

Definition panic {A} (msg : string) : M A := fun _ => (Panicked msg, []).

(** [os.Exit(code)]. *)
Definition os_Exit {A} (code : Z) : M A := fun _ => (Exit code, []).

(** [log.Print], [log.Println], [fmt.Println]. *)
Definition log_Print (s : string) : M unit := emit (EvLog (LogText s)).

(** [log.Fatal], [log.Fatalf], [log.Fatalln]: print, then [os.Exit(1)]. *)
Definition log_Fatal {A} (s : string) : M A := log_Print s ;;; os_Exit 1.

(** ** The proxy *)

Record proxy := {
  Scheme : string;
  Host : string;
  Region : string;
  Service : string;
  Verbose : bool;
  Prettify : bool;
  Refresh : float;
  CredentialsLastUpped : time.Time;
  Credentials : option credentials.Credentials
}.

(** The assignment [p.Credentials, p.CredentialsLastUpped = c, t]. *)
Definition set_Credentials (c : option credentials.Credentials)
  (t : time.Time) (p : proxy) : proxy :=
  {| Scheme := Scheme p; Host := Host p; Region := Region p;
     Service := Service p; Verbose := Verbose p; Prettify := Prettify p;
     Refresh := Refresh p; CredentialsLastUpped := t; Credentials := c |}.

(** The four assignments that end [parseEndpoint]. *)
Definition set_Endpoint (scheme host region service : string) (p : proxy)
  : proxy :=
  {| Scheme := scheme; Host := host; Region := region; Service := service;
     Verbose := Verbose p; Prettify := Prettify p; Refresh := Refresh p;
     CredentialsLastUpped := CredentialsLastUpped p;
     Credentials := Credentials p |}.

(** [x == nil] for a pointer. *)
Definition isNil {A} (x : option A) : bool :=
  match x with None => true | Some _ => false end.

(** The local function [scheme] of [parseEndpoint]. *)
Definition scheme (x : string) : string :=
  if String.eqb x "http" || String.eqb x "https" then x else "https".

(** [copyHeaders] on the entries of [src] in the order the [range] visits
    them. *)
Definition copyHeadersIn (order : list (string * list string))
  (dst : http.Header) : http.Header :=
  foldl (fun dst kv => foldl (fun dst v => http.Add kv.1 v dst) dst kv.2)
        dst order.

(** [replaceBody]: the payload, and the request with its body replaced. *)
Definition replaceBody (req : http.Request) : bytes * http.Request :=
  match http.req_Body req with
  | None => ([], req)
  | Some body =>
      let '(payload, _, _) := io.ReadAll body in
      (payload, http.set_Body (Some (io.NewReader payload)) req)
  end.

(** What became of one inbound request: a reply, or a handler that
    panicked (the server recovers and drops the connection). *)
Inductive Reply :=
| Replied (w : http.ResponseWriter)
| Aborted (msg : string).

(** The values [flag.Parse] stores from the command line. *)
Record Flags := {
  endpoint : string;
  listenAddress : string;
  verbose : bool;
  prettify : bool;
  refresh : float
}.

Section Program.

Context `{Env}.

Definition time_Now : M time.Time :=
  fun tr => let t := clock tr in (Done t, [EvNow t]).

(** [time.Since(t)] is [time.Now().Sub(t)]. *)
Definition time_Since (t : time.Time) : M time.Duration :=
  now <- time_Now ;; ret (time.Sub now t).

(** [session.Must(session.NewSession())], then the credentials of the
    session's configuration: a failed session panics. *)
Definition session_Must_NewSession
  : M (option credentials.Credentials) :=
  fun tr =>
    let r := session_NewSession tr in
    match r with
    | Ok c => (Done c, [EvNewSession r])
    | Err e => (Panicked (Error e), [EvNewSession r])
    end.

(** [signer.Sign(req, body, service, region, signTime)].  The signer
    reads the payload through the reader it is handed, rewinds it, and
    works on the header of the request.  It may attach that reader as the
    body of the request; this reader and the body set by [replaceBody]
    are two readers over the same bytes, so the body is left as it is.
    The error [Sign] returns is dropped by the caller. *)
Definition v4_Sign (signer : v4.Signer) (req : http.Request)
  (payload : bytes) (service region : string) (signTime : time.Time)
  : M http.Request :=
  emit (EvSign req payload service region signTime) ;;;
  ret (http.set_Header
         (v4_signedHeader signer req payload service region signTime) req).

(** [http.DefaultClient.Do(req)]. *)
Definition http_Do (req : http.Request) : M (result http.Response) :=
  fun tr => let r := roundTrip tr req in (Done r, [EvDo req r]).

(** [http.NewRequest(method, url, body)]. *)
Definition http_NewRequest (method urlStr : string)
  (body : option io.Reader) : result http.Request :=
  let method := if String.eqb method "" then "GET" else method in
  if negb (http.validMethod method)
  then Err (errors_New ("net/http: invalid method " +:+ method))
  else
    match url_Parse urlStr with
    | Err e => Err e
    | Ok u =>
        let u := url.set_Host (http.removeEmptyPort (url.Host u)) u in
        Ok {| http.req_Method := method; http.req_URL := u;
              http.req_Header := ∅; http.req_Body := body;
              http.req_Host := url.Host u; http.req_RemoteAddr := "" |}
    end.

(** [httputil.DumpRequest(r, true)]: the body is read into memory and
    replaced by a copy.  When reading fails the dump is abandoned and the
    request keeps its body, read up to the failure. *)
Definition httputil_DumpRequest (r : http.Request)
  : result bytes * http.Request :=
  match http.req_Body r with
  | None => (Ok (httputil_wire r), r)
  | Some body =>
      match io.ReadAll body with
      | (_, Some e, rest) => (Err e, http.set_Body (Some rest) r)
      | (b, None, _) =>
          let r := http.set_Body (Some (io.NewReader b)) r in
          (Ok (httputil_wire r), r)
      end
  end.

Definition getCredentials : M (option credentials.Credentials * time.Time) :=
  creds <- session_Must_NewSession ;;
  log_Print "Generated fresh AWS Credentials object" ;;;
  t <- time_Now ;;
  ret (creds, t).

Definition getSigner (p : proxy) : M (proxy * v4.Signer) :=
  now <- time_Now ;;
  let diff := time.Sub now (CredentialsLastUpped p) in
  p <- (if isNil (Credentials p)
           || (Refresh p <? time.Seconds diff)%float
        then
          ct <- getCredentials ;;
          ret (set_Credentials ct.1 ct.2 p)
        else ret p) ;;
  ret (p, v4.NewSigner (Credentials p)).

Definition copyHeaders (dst src : http.Header) : M http.Header :=
  fun tr => (Done (copyHeadersIn (rangeOrder tr src) dst), []).

Definition parseEndpoint (endpoint : string) (p : proxy) : M proxy :=
  match url_Parse endpoint with
  | Err _ => log_Fatal ("ERROR: Failed parsing endpoint: " +:+ endpoint)
  | Ok link =>
      let link := url.set_Scheme (scheme (url.Scheme link)) link in
      if String.eqb (url.Host link) ""
      then log_Fatal
             ("ERROR: Empty host information in submitted endpoint ("
                +:+ endpoint +:+ ")")
      else
        let parts := strings.Split (url.Host link) "." in
        if (length parts =? 5)%nat
        then
          let region := default "" (parts !! 1%nat) in
          let service := default "" (parts !! 2%nat) in
          ret (set_Endpoint (url.Scheme link) (url.Host link)
                            region service p)
        else
          log_Fatal
            "ERROR: Submitted endpoint is not a valid Amazon ElasticSearch Endpoint"
  end.

(** The local function [respondError] of [ServeHTTP]. *)
Definition respondError (err : error) (w : http.ResponseWriter)
  : http.ResponseWriter :=
  let w := http.WriteHeader http.StatusBadRequest w in
  http.Write (String.list_byte_of_string (Error err)) w.

(** The end of [ServeHTTP], from "Log everything" on. *)
Definition logRequest (p : proxy) (r : http.Request) (dump : bytes)
  (endpoint : url.URL) (resp : http.Response)
  (requestStarted : time.Time) : M unit :=
  let remoteAddr := http.req_RemoteAddr r in
  let query := extractQuery dump in
  if Verbose p then
    requestEnded <- time_Since requestStarted ;;
    if Prettify p then
      let prettyBody := json_Indent (String.list_byte_of_string query) in
      t <- time_Now ;;
      emit (EvLog (PrintBlock t remoteAddr (url_RequestURI endpoint)
                     (http.req_Method r) (http.StatusCode resp)
                     requestEnded prettyBody))
    else
      emit (EvLog (LogRequest (http.req_Method r) remoteAddr
                     (url_RequestURI endpoint) query
                     (http.StatusCode resp) requestEnded))
  else ret tt.

(** [ServeHTTP]: the proxy is behind a pointer and the writer is an
    object, so both are returned as the call leaves them. *)
Definition ServeHTTP (p : proxy) (w : http.ResponseWriter)
  (r : http.Request) : M (proxy * http.ResponseWriter) :=
  requestStarted <- time_Now ;;
  let '(dumped, r) := httputil_DumpRequest r in
  let dump := match dumped with Ok d => d | Err _ => [] end in
  (* defer r.Body.Close(): the method value of a nil interface *)
  match http.req_Body r with
  | None => panic "invalid memory address or nil pointer dereference"
  | Some _ =>
      let endpoint := url.set_Host (Host p) (http.req_URL r) in
      let endpoint := url.set_Scheme (Scheme p) endpoint in
      match http_NewRequest (http.req_Method r) (url_String endpoint)
              (http.req_Body r) with
      | Err err => ret (p, respondError err w)
      | Ok req =>
          (* Workaround for ES 5.1 and Kibana 5.1.1 *)
          req <- match http.req_Header r !! "Kbn-Version" with
                 | Some val =>
                     match val with
                     | [] => panic "index out of range"
                     | v0 :: _ =>
                         ret (http.set_Header
                                (http.Set_ "Kbn-Version" v0
                                   (http.req_Header req)) req)
                     end
                 | None => ret req
                 end ;;
          ps <- getSigner p ;;
          let p := ps.1 in
          let signer := ps.2 in
          let '(payload, req) := replaceBody req in
          signTime <- time_Now ;;
          req <- v4_Sign signer req payload (Service p) (Region p)
                   signTime ;;
          sent <- http_Do req ;;
          match sent with
          | Err err =>
              log_Print (Error err) ;;;
              ret (p, respondError err w)
          | Ok resp =>
              (* Write back received headers *)
              h <- copyHeaders (http.rw_Header w) (http.resp_Header resp) ;;
              let w := http.with_Header h w in
              match io.Copy (http.resp_Body resp) with
              | (_, Some err) => log_Fatal (Error err)
              | (buf, None) =>
                  (* Send response back *)
                  let w := http.WriteHeader (http.StatusCode resp) w in
                  let w := http.Write buf w in
                  logRequest p r dump endpoint resp requestStarted ;;;
                  ret (p, w)
              end
          end
      end
  end.

(** [http.ListenAndServe(addr, p)] on the requests that arrive, handled
    one after the other: the replies, how the server ends, and the events
    added.  [Done] means that the server is still listening; an [Exit] in a
    handler ends the process, so the requests that follow get no reply. *)
Fixpoint ListenAndServe (p : proxy) (inbound : list http.Request)
  (tr : Trace) : list Reply * Outcome proxy * Trace :=
  match inbound with
  | [] => ([], Done p, [])
  | r :: rest =>
      match ServeHTTP p http.newResponseWriter r tr with
      | (Done (p', w), new) =>
          let '(replies, o, new') := ListenAndServe p' rest (new ++ tr) in
          (Replied w :: replies, o, new' ++ new)
      | (Panicked msg, new) =>
          let '(replies, o, new') := ListenAndServe p rest (new ++ tr) in
          (Aborted msg :: replies, o, new' ++ new)
      | (Exit code, new) => ([], Exit code, new)
      end
  end.

(** [main], given the command line, its parsed flags and the requests
    that arrive once the proxy listens. *)
Definition main (os_Args : list string) (fl : Flags)
  (inbound : list http.Request) (tr : Trace)
  : list Reply * Outcome proxy * Trace :=
  if (length os_Args <? 3)%nat
  then
    match (log_Print "You need to specify Amazon ElasticSearch endpoint." ;;;
           log_Print "Please run with '-h' for a list of available arguments." ;;;
           os_Exit 1) tr with
    | (o, new) => ([], o, new)
    end
  else
    let mux := {| Scheme := ""; Host := ""; Region := ""; Service := "";
                  Verbose := verbose fl; Prettify := prettify fl;
                  Refresh := refresh fl; CredentialsLastUpped := 0;
                  Credentials := None |} in
    match (mux <- parseEndpoint (endpoint fl) mux ;;
           log_Print ("Listening on " +:+ listenAddress fl) ;;;
           ret mux) tr with
    | (Done mux, new) =>
        let '(replies, o, new') := ListenAndServe mux inbound (new ++ tr) in
        (replies, o, new' ++ new)
    | (Exit code, new) => ([], Exit code, new)
    | (Panicked msg, new) => ([], Panicked msg, new)
    end.

End Program.

(** ** A test environment

    A small instance of [Env] on which the program runs by computation: a
    parser and printer for plain URLs (scheme, authority, path, query and
    fragment; no user information, no escapes), a clock that advances by
    one second with every event, an ambient lookup that always succeeds,
    a signer that sets two headers, and an upstream given as a parameter. *)

Module testenv.

(** [s] up to the first [c], and what follows that [c] if there is one. *)
Fixpoint cut (c : ascii) (s : string) : string * option string :=
  match s with
  | EmptyString => (EmptyString, None)
  | String x t =>
      if Ascii.eqb x c then (EmptyString, Some t)
      else let '(a, b) := cut c t in (String x a, b)
  end.

Fixpoint lower (s : string) : string :=
  match s with
  | EmptyString => EmptyString
  | String c t => String (textproto.toLower c) (lower t)
  end.

Definition isSchemeByte (c : ascii) : bool :=
  textproto.isLower c || textproto.isUpper c || textproto.isDigit c ||
  Ascii.eqb c "+" || Ascii.eqb c "-" || Ascii.eqb c ".".

Fixpoint allScheme (s : string) : bool :=
  match s with
  | EmptyString => true
  | String c t => isSchemeByte c && allScheme t
  end.

(** The scheme, lower-cased, and the rest; no scheme unless a colon
    follows a letter and scheme bytes. *)
Definition getScheme (s : string) : string * string :=
  match cut ":" s with
  | (String c pre, Some rest) =>
      if (textproto.isLower c || textproto.isUpper c) && allScheme pre
      then (lower (String c pre), rest)
      else (EmptyString, s)
  | _ => (EmptyString, s)
  end.

Definition Parse (rawURL : string) : result url.URL :=
  match rawURL with
  | String ":" _ => Err (errors_New "missing protocol scheme")
  | _ =>
      let '(u, frag) := cut "#" rawURL in
      let '(scheme, rest) := getScheme u in
      let '(rest, query) := cut "?" rest in
      let mk opaque host path :=
        {| url.Scheme := scheme; url.Opaque := opaque; url.User := None;
           url.Host := host; url.Path := path; url.RawPath := EmptyString;
           url.ForceQuery := false; url.RawQuery := default EmptyString query;
           url.Fragment := default EmptyString frag |} in
      match rest with
      | String "/" (String "/" auth) =>
          let '(host, path) := cut "/" auth in
          Ok (mk EmptyString host
                (match path with
                 | Some p => String "/" p
                 | None => EmptyString
                 end))
      | String "/" _ => Ok (mk EmptyString EmptyString rest)
      | _ =>
          if String.eqb scheme EmptyString
          then Ok (mk EmptyString EmptyString rest)
          else Ok (mk rest EmptyString EmptyString)
      end
  end.

Definition nonEmpty (s : string) : bool := negb (String.eqb s EmptyString).

Definition queryPart (u : url.URL) : string :=
  if url.ForceQuery u || nonEmpty (url.RawQuery u)
  then "?" +:+ url.RawQuery u else EmptyString.

Definition String_ (u : url.URL) : string :=
  (if nonEmpty (url.Scheme u) then url.Scheme u +:+ ":" else EmptyString)
  +:+ (if nonEmpty (url.Opaque u) then url.Opaque u
       else
         (if (nonEmpty (url.Scheme u) || nonEmpty (url.Host u))
             && (nonEmpty (url.Host u) || nonEmpty (url.Path u))
          then "//" else EmptyString)
         +:+ url.Host u
         +:+ (match url.Path u with
              | String "/" _ | EmptyString => EmptyString
              | _ => if nonEmpty (url.Host u) then "/" else EmptyString
              end)
         +:+ url.Path u)
  +:+ queryPart u
  +:+ (if nonEmpty (url.Fragment u) then "#" +:+ url.Fragment u
       else EmptyString).

Definition RequestURI (u : url.URL) : string :=
  (if nonEmpty (url.Opaque u)
   then match url.Opaque u with
        | String "/" (String "/" _) => url.Scheme u +:+ ":" +:+ url.Opaque u
        | _ => url.Opaque u
        end
   else if nonEmpty (url.Path u) then url.Path u else "/")
  +:+ queryPart u.

Definition crlf : string := String "013" (String "010" EmptyString).

(** The request line, the host line, an empty line and the body. *)
Definition wire (r : http.Request) : bytes :=
  String.list_byte_of_string
    (http.req_Method r +:+ " " +:+ RequestURI (http.req_URL r)
       +:+ " HTTP/1.1" +:+ crlf +:+ "Host: " +:+ http.req_Host r
       +:+ crlf +:+ crlf)
  ++ match http.req_Body r with
     | Some body => io.pending body
     | None => []
     end.

(** Midnight of some day, in nanoseconds. *)
Definition epoch : time.Time := 63800000000 * time.Second.

Definition clock (tr : Trace) : time.Time :=
  epoch + Z.of_nat (length tr) * time.Second.

Definition NewSession (tr : Trace) : result (option credentials.Credentials) :=
  Ok (Some {| credentials.handle := length tr |}).

Definition signedHeader (signer : v4.Signer) (req : http.Request)
  (payload : bytes) (service region : string) (t : time.Time) : http.Header :=
  http.Set_ "Authorization"
    ("AWS4-HMAC-SHA256 Credential=test/" +:+ region +:+ "/" +:+ service)
    (http.Set_ "X-Amz-Date" "20221031T000000Z" (http.req_Header req)).

End testenv.

Definition testEnv (upstream : Trace -> http.Request -> result http.Response)
  : Env := {|
  url_Parse := testenv.Parse;
  url_String := testenv.String_;
  url_RequestURI := testenv.RequestURI;
  httputil_wire := testenv.wire;
  json_Indent := fun b => b;
  clock := testenv.clock;
  session_NewSession := testenv.NewSession;
  v4_signedHeader := testenv.signedHeader;
  roundTrip := upstream;
  rangeOrder := fun _ h => map_to_list h;
  rangeOrder_perm := fun _ h => reflexivity (map_to_list h)
|}.

(** Three upstreams: one that answers, one that cannot be reached, and
    one whose answer breaks off while its body is read. *)
Definition okResponse : http.Response :=
  {| http.StatusCode := 201;
     http.resp_Header :=
       {[ "Content-Type" := ["application/json"];
          "Set-Cookie" := ["a=1"; "b=2"] ]};
     http.resp_Body := io.NewReader (String.list_byte_of_string "{ok}") |}.

Definition brokenResponse : http.Response :=
  {| http.StatusCode := 200;
     http.resp_Header := {[ "Content-Type" := ["application/json"] ]};
     http.resp_Body :=
       {| io.pending := String.list_byte_of_string "{o";
          io.failure := Some (errors_New "unexpected EOF") |} |}.

Definition refused : error :=
  errors_New "dial tcp 10.0.0.1:443: connect: connection refused".

Definition upstreamOK (tr : Trace) (req : http.Request)
  : result http.Response := Ok okResponse.

Definition upstreamDown (tr : Trace) (req : http.Request)
  : result http.Response := Err refused.

Definition upstreamBroken (tr : Trace) (req : http.Request)
  : result http.Response := Ok brokenResponse.

(** An inbound search request, as the server hands it to the handler. *)
Definition searchRequest : http.Request :=
  {| http.req_Method := "POST";
     http.req_URL :=
       {| url.Scheme := EmptyString; url.Opaque := EmptyString;
          url.User := None; url.Host := EmptyString;
          url.Path := "/idx/_search"; url.RawPath := EmptyString;
          url.ForceQuery := false; url.RawQuery := "pretty";
          url.Fragment := EmptyString |};
     http.req_Header :=
       {[ "Content-Type" := ["application/json"];
          "Kbn-Version" := ["5.1.1"] ]};
     http.req_Body := Some (io.NewReader (String.list_byte_of_string "{q}"));
     http.req_Host := "localhost:9200";
     http.req_RemoteAddr := "127.0.0.1:50000" |}.

(** The same request on a connection that breaks while the body is
    read. *)
Definition brokenRequest : http.Request :=
  http.set_Body
    (Some {| io.pending := String.list_byte_of_string "{q";
             io.failure := Some (errors_New "unexpected EOF") |})
    searchRequest.

(** The proxy once [parseEndpoint] has run on
    [https://foo.eu-west-1.es.amazonaws.com]. *)
Definition testProxy : proxy :=
  {| Scheme := "https"; Host := "foo.eu-west-1.es.amazonaws.com";
     Region := "eu-west-1"; Service := "es"; Verbose := true;
     Prettify := false; Refresh := 120%float; CredentialsLastUpped := 0;
     Credentials := None |}.

(** The proxy before [parseEndpoint], as [main] builds it. *)
Definition blankProxy : proxy :=
  {| Scheme := EmptyString; Host := EmptyString; Region := EmptyString;
     Service := EmptyString; Verbose := true; Prettify := false;
     Refresh := 120%float; CredentialsLastUpped := 0; Credentials := None |}.

(** ** Vocabulary of the statements *)

(** [sub] occurs in [s] as a contiguous span. *)
Definition Contains (s sub : string) : Prop :=
  exists pre post, s = pre +:+ sub +:+ post.

(** The byte [c] occurs in [s]. *)
Fixpoint occurs (c : ascii) (s : string) : bool :=
  match s with
  | EmptyString => false
  | String x t => Ascii.eqb x c || occurs c t
  end.

(** [s] without the prefix [lit], when it has that prefix. *)
Fixpoint trimPrefix (lit s : string) : option string :=
  match lit with
  | EmptyString => Some s
  | String c lit' =>
      match s with
      | String x t => if Ascii.eqb x c then trimPrefix lit' t else None
      | EmptyString => None
      end
  end.

(** [sub] occurs in [s], decided from left to right. *)
Fixpoint containsb (s sub : string) : bool :=
  match trimPrefix sub s with
  | Some _ => true
  | None =>
      match s with
      | EmptyString => false
      | String _ t => containsb t sub
      end
  end.

(** [string(b)] for a byte slice [b]. *)
Abbreviation text := String.string_of_list_byte.

(** The dump as the two patterns see it: every newline is a blank. *)
Definition normalize (s : string) : string :=
  strings.Replace s regexp.newline " " (-1).

(** The round trips in a trace, the latest first. *)
Fixpoint roundTrips (tr : Trace)
  : list (http.Request * result http.Response) :=
  match tr with
  | [] => []
  | EvDo req sent :: rest => (req, sent) :: roundTrips rest
  | _ :: rest => roundTrips rest
  end.

(** The request of the latest round trip. *)
Definition sentRequest (tr : Trace) : option http.Request :=
  fst <$> head (roundTrips tr).

(** The number of ambient credential lookups in a trace. *)
Fixpoint fetches (tr : Trace) : nat :=
  match tr with
  | [] => 0
  | EvNewSession _ :: rest => S (fetches rest)
  | _ :: rest => fetches rest
  end.

(** What [getCredentials] logs. *)
Definition freshLog : Event :=
  EvLog (LogText "Generated fresh AWS Credentials object").

(** An event that neither signs nor sends a request. *)
Definition quiet (e : Event) : Prop :=
  match e with
  | EvSign _ _ _ _ _ | EvDo _ _ => False
  | _ => True
  end.

(** The proxy with credentials that were fetched five seconds before the
    test clock starts. *)
Definition cachedProxy : proxy :=
  set_Credentials (Some {| credentials.handle := 7 |})
    (testenv.epoch - 5 * time.Second) testProxy.

(** The URL [ServeHTTP] sends to: the inbound URL with the scheme and the
    host of the proxy. *)
Definition endpointOf (p : proxy) (r : http.Request) : url.URL :=
  url.set_Scheme (Scheme p) (url.set_Host (Host p) (http.req_URL r)).

(** The body of the inbound request once [DumpRequest] has read it: an
    in-memory copy, or what a failed read left. *)
Definition dumpedBody (body : io.Reader) : io.Reader :=
  match io.failure body with
  | Some _ => io.drained body
  | None => io.NewReader (io.pending body)
  end.

(** The outbound request after the Kibana workaround; [None] when the
    inbound header has the key with no value. *)
Definition withKbnVersion (r req : http.Request) : option http.Request :=
  match http.req_Header r !! "Kbn-Version" with
  | Some [] => None
  | Some (v0 :: _) =>
      Some (http.set_Header
              (http.Set_ "Kbn-Version" v0 (http.req_Header req)) req)
  | None => Some req
  end.

(** The bytes the HTTP client reads from the body of a request. *)
Definition wireBody (req : http.Request) : bytes :=
  match http.req_Body req with
  | Some body => io.pending body
  | None => []
  end.

(** The values a header map has for a key: [h[k]], empty when the key is
    absent. *)
Definition values (h : http.Header) (k : string) : list string :=
  default [] (h !! k).

(** The values that the entries visited in [order] contribute to the key
    [k'] of the destination. *)
Fixpoint gathered (order : list (string * list string)) (k' : string)
  : list string :=
  match order with
  | [] => []
  | (k, vs) :: rest =>
      (if decide (textproto.CanonicalMIMEHeaderKey k = k') then vs else [])
      ++ gathered rest k'
  end.

(** The two markers of a bulk or multi-search request. *)
Definition marker1 : string := "_msearch".
Definition marker2 : string := "_bulk".

(** The continuation of the brace pattern after its star. *)
Definition closeBrace (s : string) : option string :=
  regexp.run (regexp.Literal "}") Some s.

(** A request dump with a search body on two lines:
    a request line, a host line, an empty line, then the body. *)
Definition crlf : string := String "013" (String "010" EmptyString).
Definition searchDump : bytes :=
  String.list_byte_of_string
    ("POST /idx/_search HTTP/1.1" +:+ crlf +:+ "Host: es" +:+ crlf +:+ crlf
       +:+ "{" +:+ String "010" "}").

(** The same request sent to the bulk interface. *)
Definition bulkDump : bytes :=
  String.list_byte_of_string
    ("POST /idx/_bulk HTTP/1.1" +:+ crlf +:+ "Host: es" +:+ crlf +:+ crlf
       +:+ "{" +:+ String "010" "}").

(** The longest run of bytes other than newline after which [k] accepts:
    what the greedy star of [.] computes. *)
Fixpoint greedy (k : string -> option string) (s : string) : option string :=
  match s with
  | EmptyString => k s
  | String c t =>
      if Ascii.eqb c regexp.newline then k s
      else match greedy k t with
           | Some r => Some r
           | None => k s
           end
  end.

Section HandlerVocabulary.

Context `{Env}.

(** What is known of a request once it is handed to the signer. *)
Record Signed (p : proxy) (r reqS : http.Request) (payload : bytes) : Prop := {
  signed_body : exists body,
      http.req_Body r = Some body /\ payload = io.pending (dumpedBody body);
  signed_wire : http.req_Body reqS = Some (io.NewReader payload);
  signed_method :
    http.req_Method reqS =
    (if String.eqb (http.req_Method r) EmptyString then "GET"
     else http.req_Method r);
  signed_url : exists u,
      url_Parse (url_String (endpointOf p r)) = Ok u /\
      http.req_URL reqS = url.set_Host (http.removeEmptyPort (url.Host u)) u;
  signed_header :
    http.req_Header reqS =
    match http.req_Header r !! "Kbn-Version" with
    | Some (v0 :: _) => http.Set_ "Kbn-Version" v0 ∅
    | _ => ∅
    end
}.

(** The handler makes at most one round trip, after one signature; how
    it ends is decided by the answer. *)
Record Sent (p : proxy) (w : http.ResponseWriter) (r req : http.Request)
  (sent : result http.Response)
  (out : Outcome (proxy * http.ResponseWriter)) (new : Trace) : Prop := {
  sent_signed : exists reqS payload signer t,
      In (EvSign reqS payload (Service p) (Region p) t) new /\
      Signed p r reqS payload /\
      req = http.set_Header
              (v4_signedHeader signer reqS payload (Service p) (Region p) t)
              reqS;
  sent_outcome :
    match sent with
    | Err err => exists p1, out = Done (p1, respondError err w)
    | Ok resp =>
        match io.failure (http.resp_Body resp) with
        | Some _ => out = Exit 1
        | None =>
            exists p1 order,
              order ≡ₚ map_to_list (http.resp_Header resp) /\
              out = Done (p1,
                          http.Write (io.pending (http.resp_Body resp))
                            (http.WriteHeader (http.StatusCode resp)
                               (http.with_Header
                                  (copyHeadersIn order (http.rw_Header w)) w)))
        end
    end
}.

End HandlerVocabulary.

(** ** Vocabulary of the further properties *)

(** The part of the proxy that [main] and [parseEndpoint] set. *)
Definition config (p : proxy)
  : string * string * string * string * bool * bool * float :=
  (Scheme p, Host p, Region p, Service p, Verbose p, Prettify p, Refresh p).

(** The number of signatures in a trace. *)
Fixpoint signatures (tr : Trace) : nat :=
  match tr with
  | [] => 0
  | EvSign _ _ _ _ _ :: rest => S (signatures rest)
  | _ :: rest => signatures rest
  end.

(** The cached proxy with a refresh interval that is no number, as the
    flag [-refresh NaN] sets it. *)
Definition nanProxy : proxy :=
  {| Scheme := Scheme cachedProxy; Host := Host cachedProxy;
     Region := Region cachedProxy; Service := Service cachedProxy;
     Verbose := Verbose cachedProxy; Prettify := Prettify cachedProxy;
     Refresh := PrimFloat.nan;
     CredentialsLastUpped := CredentialsLastUpped cachedProxy;
     Credentials := Credentials cachedProxy |}.

Section LogVocabulary.

Context `{Env}.

(** What the end of [ServeHTTP] prints for a relayed request, with the
    clock readings it takes, the latest first. *)
Definition logEvents (p : proxy) (r : http.Request) (dump : bytes)
  (u : url.URL) (resp : http.Response) (requestStarted : time.Time)
  (tr : Trace) : Trace :=
  if Verbose p then
    let ended := clock tr in
    let took := time.Sub ended requestStarted in
    if Prettify p then
      let t := clock (EvNow ended :: tr) in
      [EvLog (PrintBlock t (http.req_RemoteAddr r) (url_RequestURI u)
                (http.req_Method r) (http.StatusCode resp) took
                (json_Indent (String.list_byte_of_string (extractQuery dump))));
       EvNow t; EvNow ended]
    else
      [EvLog (LogRequest (http.req_Method r) (http.req_RemoteAddr r)
                (url_RequestURI u) (extractQuery dump)
                (http.StatusCode resp) took);
       EvNow ended]
  else [].

(** The dump [ServeHTTP] keeps: nil when [DumpRequest] failed. *)
Definition dumpOf (r : http.Request) : bytes :=
  match (httputil_DumpRequest r).1 with
  | Ok d => d
  | Err _ => []
  end.

End LogVocabulary.

(** The test environment without ambient credentials. *)
Definition noCredentials : error :=
  errors_New "NoCredentialProviders: no valid providers in chain".

Definition noCredentialsEnv : Env := {|
  url_Parse := testenv.Parse;
  url_String := testenv.String_;
  url_RequestURI := testenv.RequestURI;
  httputil_wire := testenv.wire;
  json_Indent := fun b => b;
  clock := testenv.clock;
  session_NewSession := fun _ => Err noCredentials;
  v4_signedHeader := testenv.signedHeader;
  roundTrip := upstreamOK;
  rangeOrder := fun _ h => map_to_list h;
  rangeOrder_perm := fun _ h => reflexivity (map_to_list h)
|}.

(** The search request with a method that is no token. *)
Definition badMethodRequest : http.Request :=
  {| http.req_Method := "PO ST";
     http.req_URL := http.req_URL searchRequest;
     http.req_Header := http.req_Header searchRequest;
     http.req_Body := http.req_Body searchRequest;
     http.req_Host := http.req_Host searchRequest;
     http.req_RemoteAddr := http.req_RemoteAddr searchRequest |}.

(** The search request with a nil body. *)
Definition nilBodyRequest : http.Request := http.set_Body None searchRequest.

(** The search request with the key [Kbn-Version] and no value. *)
Definition noValueRequest : http.Request :=
  http.set_Header {[ "Kbn-Version" := [] ]} searchRequest.

(* ===================================================================== *)
(** * Part II: theorems                                                   *)
(* ===================================================================== *)

Example extractQuery_search :
  extractQuery (String.list_byte_of_string
    ("POST /idx/_search HTTP/1.1" +:+ String "013" (String "010" "Host: h") +:+
     String "013" (String "010" (String "013" (String "010" "{a:{b:1}} x}")))))
  = "{a:{b:1}} x}".
Proof. vm_compute. reflexivity. Qed.

(** ** Strings *)

Section Strings.

Local Arguments String.append !_ _.

Implicit Types (s t pre post : string) (c : ascii).

Lemma append_nil_r s : s +:+ EmptyString = s.
Proof. induction s as [|c s IH]; simpl; [reflexivity | now rewrite IH]. Qed.

Lemma append_assoc s t u : (s +:+ t) +:+ u = s +:+ (t +:+ u).
Proof. induction s as [|c s IH]; simpl; [reflexivity | now rewrite IH]. Qed.

Lemma length_append s t :
  String.length (s +:+ t) = (String.length s + String.length t)%nat.
Proof. induction s as [|c s IH]; simpl; [reflexivity | now rewrite IH]. Qed.

Lemma substring_0_length s t :
  String.substring 0 (String.length s) (s +:+ t) = s.
Proof. induction s as [|c s IH]; simpl; [now destruct t | now rewrite IH]. Qed.

(** The text of a match, recovered from the input and from what the match
    left over. *)
Lemma substring_match s rest :
  String.substring 0 (String.length (s +:+ rest) - String.length rest)
    (s +:+ rest) = s.
Proof.
  rewrite length_append.
  replace (String.length s + String.length rest - String.length rest)%nat
    with (String.length s) by lia.
  apply substring_0_length.
Qed.

Lemma occurs_append c s t : occurs c (s +:+ t) = occurs c s || occurs c t.
Proof.
  induction s as [|x s IH]; simpl; [reflexivity|].
  rewrite IH. now rewrite orb_assoc.
Qed.

Lemma trimPrefix_spec lit s rest :
  trimPrefix lit s = Some rest <-> s = lit +:+ rest.
Proof.
  revert s. induction lit as [|c lit IH]; intros s; simpl.
  - split; [now intros [= ->] | now intros ->].
  - destruct s as [|x t]; [split; discriminate|].
    destruct (Ascii.eqb_spec x c) as [->|Hne].
    + rewrite IH. split; [now intros -> | now intros [= ->]].
    + split; [discriminate | intros [= -> _]; now destruct Hne].
Qed.

Lemma trimPrefix_append lit rest : trimPrefix lit (lit +:+ rest) = Some rest.
Proof. now apply trimPrefix_spec. Qed.

Lemma containsb_spec s sub : containsb s sub = true <-> Contains s sub.
Proof.
  induction s as [|x t IH]; simpl.
  - destruct (trimPrefix sub EmptyString) as [r|] eqn:E.
    + split; [intros _|reflexivity].
      apply trimPrefix_spec in E. now exists EmptyString, r.
    + split; [discriminate|]. intros (pre & post & Heq).
      destruct pre; simpl in Heq.
      * apply trimPrefix_spec in Heq. congruence.
      * discriminate.
  - destruct (trimPrefix sub (String x t)) as [r|] eqn:E.
    + split; [intros _|reflexivity].
      apply trimPrefix_spec in E. now exists EmptyString, r.
    + rewrite IH. split.
      * intros (pre & post & ->). now exists (String x pre), post.
      * intros (pre & post & Heq). destruct pre as [|y pre]; simpl in Heq.
        -- apply trimPrefix_spec in Heq. congruence.
        -- injection Heq as _ ->. now exists pre, post.
Qed.

Lemma not_Contains_tail x t sub :
  ~ Contains (String x t) sub -> ~ Contains t sub.
Proof.
  intros Hn (pre & post & ->). apply Hn. now exists (String x pre), post.
Qed.

(** *** [strings.Replace] of every newline *)

Lemma normalize_cons c s :
  normalize (String c s) =
  String (if Ascii.eqb c regexp.newline then " "%char else c) (normalize s).
Proof.
  unfold normalize. simpl.
  now destruct (Ascii.eqb c regexp.newline).
Qed.

Lemma normalize_append s t : normalize (s +:+ t) = normalize s +:+ normalize t.
Proof.
  induction s as [|c s IH]; [reflexivity|].
  change (String c s +:+ t) with (String c (s +:+ t)).
  rewrite !normalize_cons, IH. reflexivity.
Qed.

Lemma normalize_no_newline s : occurs regexp.newline (normalize s) = false.
Proof.
  induction s as [|c s IH]; [reflexivity|].
  rewrite normalize_cons. simpl. rewrite IH, orb_false_r.
  destruct (Ascii.eqb_spec c regexp.newline) as [->|Hne]; [reflexivity|].
  now apply Ascii.eqb_neq.
Qed.

Lemma normalize_id s : occurs regexp.newline s = false -> normalize s = s.
Proof.
  induction s as [|c s IH]; [reflexivity|]. simpl.
  intros [Hc Hs]%orb_false_iff. rewrite normalize_cons, Hc, IH; auto.
Qed.

(** A text without blanks that [normalize] produces was there before. *)
Lemma normalize_inv_clean s m :
  normalize s = m -> occurs " " m = false -> s = m.
Proof.
  revert m. induction s as [|c s IH]; intros m; [now intros <-|].
  rewrite normalize_cons. intros <-. simpl. intros [Hc Hs]%orb_false_iff.
  destruct (Ascii.eqb_spec c regexp.newline) as [->|Hne].
  - discriminate.
  - f_equal. now apply IH.
Qed.

Lemma normalize_split s a b :
  normalize s = a +:+ b ->
  exists s1 s2, s = s1 +:+ s2 /\ normalize s1 = a /\ normalize s2 = b.
Proof.
  revert s. induction a as [|x a IH]; intros s Heq.
  - now exists EmptyString, s.
  - destruct s as [|c s]; [discriminate|].
    rewrite normalize_cons in Heq. simpl in Heq. injection Heq as Hx Heq.
    destruct (IH _ Heq) as (s1 & s2 & -> & H1 & H2).
    exists (String c s1), s2. rewrite normalize_cons, H1, Hx. auto.
Qed.

(** Replacing newlines neither creates nor destroys an occurrence of a
    text that has no newline and no blank. *)
Lemma Contains_normalize s m :
  occurs regexp.newline m = false -> occurs " " m = false ->
  Contains (normalize s) m <-> Contains s m.
Proof.
  intros Hnl Hsp. split.
  - intros (pre & post & Heq).
    apply normalize_split in Heq as (s1 & s2 & -> & H1 & Heq).
    apply normalize_split in Heq as (s3 & s4 & -> & H3 & H4).
    apply normalize_inv_clean in H3; [|assumption]. subst s3.
    now exists s1, s4.
  - intros (pre & post & ->).
    rewrite !normalize_append, (normalize_id m Hnl).
    now exists (normalize pre), (normalize post).
Qed.

End Strings.

(** ** The two patterns *)

Section Patterns.

Local Arguments String.append !_ _.

Implicit Types (s t pre mid post : string) (k : string -> option string).

(** A literal matches exactly where the input has it as a prefix. *)
Lemma run_literal lit k s :
  regexp.run (regexp.literal lit) k s =
  match trimPrefix lit s with Some rest => k rest | None => None end.
Proof.
  revert s. induction lit as [|c lit IH]; intros s; simpl; [reflexivity|].
  destruct s as [|x t]; [reflexivity|].
  destruct (Ascii.eqb x c); [apply IH | reflexivity].
Qed.

(** The star of [.], on any amount of fuel that covers the input. *)
Lemma iterate_any k fuel s :
  (String.length s <= fuel)%nat ->
  regexp.iterate (regexp.run regexp.AnyCharNotNL) k fuel s = greedy k s.
Proof.
  revert s. induction fuel as [|fuel IH]; intros s Hlen.
  - destruct s; [reflexivity | simpl in Hlen; lia].
  - destruct s as [|c t]; [reflexivity|].
    simpl in *. destruct (Ascii.eqb c regexp.newline); [reflexivity|].
    assert (Hlt : (String.length t <? S (String.length t))%nat = true)
      by (apply Nat.ltb_lt; lia).
    rewrite Hlt, IH by lia. reflexivity.
Qed.

Lemma run_star_any k s :
  regexp.run (regexp.Star regexp.AnyCharNotNL) k s = greedy k s.
Proof. simpl. now apply iterate_any. Qed.

Lemma run_regex s :
  regexp.run regex Some s =
  match s with
  | String c t => if Ascii.eqb c "{" then greedy closeBrace t else None
  | EmptyString => None
  end.
Proof.
  unfold regex.
  change (regexp.run (regexp.Concat ?a ?b) ?k ?s)
    with (regexp.run a (regexp.run b k) s).
  destruct s as [|c t]; [reflexivity|].
  cbn [regexp.run]. destruct (Ascii.eqb c "{"); [|reflexivity].
  apply run_star_any.
Qed.

Lemma greedy_close_none s :
  occurs "}" s = false -> greedy closeBrace s = None.
Proof.
  induction s as [|c t IH]; [reflexivity|]. simpl.
  intros [Hc Ht]%orb_false_iff. rewrite IH by assumption.
  unfold closeBrace; simpl. rewrite Hc.
  now destruct (Ascii.eqb c regexp.newline).
Qed.

(** Greedy: the match runs to the last closing brace. *)
Lemma greedy_close_last mid post :
  occurs regexp.newline mid = false -> occurs "}" post = false ->
  greedy closeBrace (mid +:+ String "}" post) = Some post.
Proof.
  intros Hmid Hpost. induction mid as [|c mid IH]; simpl.
  - now rewrite greedy_close_none.
  - simpl in Hmid. apply orb_false_iff in Hmid as [Hc Hmid].
    now rewrite Hc, IH.
Qed.

Lemma greedy_close_inv s rest :
  greedy closeBrace s = Some rest -> exists mid, s = mid +:+ String "}" rest.
Proof.
  assert (Hk : forall u, closeBrace u = Some rest -> u = String "}" rest).
  { intros [|x u]; unfold closeBrace; simpl; [discriminate|].
    destruct (Ascii.eqb_spec x "}") as [->|]; [|discriminate].
    now intros [= ->]. }
  induction s as [|c t IH]; simpl.
  - intros Hs%Hk. discriminate.
  - destruct (Ascii.eqb c regexp.newline).
    + intros Hs%Hk. now exists EmptyString.
    + destruct (greedy closeBrace t) as [r|] eqn:E.
      * intros [= ->]. destruct IH as [mid ->]; [reflexivity|].
        now exists (String c mid).
      * intros Hs%Hk. now exists EmptyString.
Qed.

(** The brace pattern finds the span from the first opening brace to the
    last closing brace. *)
Lemma find_regex_span pre mid post :
  occurs "{" pre = false -> occurs regexp.newline mid = false ->
  occurs "}" post = false ->
  regexp.find regex (pre +:+ String "{" (mid +:+ String "}" post))
  = Some (String "{" (mid +:+ "}")).
Proof.
  intros Hpre Hmid Hpost. induction pre as [|c pre IH].
  - cbn [String.append regexp.find]. rewrite run_regex.
    cbn [Ascii.eqb Bool.eqb]. simpl Ascii.eqb.
    rewrite greedy_close_last by assumption. f_equal.
    change (String "{" (mid +:+ String "}" post))
      with (String "{" mid +:+ String "}" post).
    replace (String "{" mid +:+ String "}" post)
      with ((String "{" (mid +:+ "}")) +:+ post).
    + apply substring_match.
    + simpl. f_equal. rewrite append_assoc. reflexivity.
  - simpl in Hpre. apply orb_false_iff in Hpre as [Hc Hpre].
    cbn [String.append regexp.find]. rewrite run_regex, Hc. now apply IH.
Qed.

(** Without an opening brace that is followed by a closing one, the brace
    pattern finds nothing. *)
Lemma find_regex_none s :
  (forall pre mid post, s <> pre +:+ String "{" (mid +:+ String "}" post)) ->
  regexp.find regex s = None.
Proof.
  induction s as [|c t IH]; intros Hno.
  - reflexivity.
  - cbn [regexp.find]. rewrite run_regex.
    assert (Ht : regexp.find regex t = None).
    { apply IH. intros pre mid post ->.
      now apply (Hno (String c pre) mid post). }
    destruct (Ascii.eqb_spec c "{") as [->|_]; [|exact Ht].
    destruct (greedy closeBrace t) as [r|] eqn:E; [|exact Ht].
    apply greedy_close_inv in E as [mid ->].
    now destruct (Hno EmptyString mid r).
Qed.

Lemma run_regEx s :
  regexp.run regEx Some s =
  match trimPrefix marker1 s with
  | Some rest => Some rest
  | None => trimPrefix marker2 s
  end.
Proof.
  unfold regEx.
  change (regexp.run (regexp.Alternate ?a ?b) ?k ?s)
    with (match regexp.run a k s with
          | Some r => Some r
          | None => regexp.run b k s
          end).
  rewrite !run_literal. fold marker1 marker2.
  destruct (trimPrefix marker1 s); [reflexivity|].
  now destruct (trimPrefix marker2 s).
Qed.

(** What the marker pattern finds is one of the two markers. *)
Lemma find_regEx_some s m :
  regexp.find regEx s = Some m -> m = marker1 \/ m = marker2.
Proof.
  induction s as [|c t IH]; cbn [regexp.find]; rewrite run_regEx.
  - discriminate.
  - destruct (trimPrefix marker1 (String c t)) as [r|] eqn:E1.
    + apply trimPrefix_spec in E1. rewrite E1, substring_match.
      intros [= <-]. now left.
    + destruct (trimPrefix marker2 (String c t)) as [r|] eqn:E2; [|exact IH].
      apply trimPrefix_spec in E2. rewrite E2, substring_match.
      intros [= <-]. now right.
Qed.

(** The marker pattern finds nothing exactly when neither marker occurs. *)
Lemma find_regEx_none s :
  regexp.find regEx s = None <->
  ~ Contains s marker1 /\ ~ Contains s marker2.
Proof.
  rewrite <- !containsb_spec.
  induction s as [|c t IH]; cbn [regexp.find containsb]; rewrite run_regEx.
  - cbn. split; [intros _; split; discriminate | reflexivity].
  - destruct (trimPrefix marker1 (String c t)) as [r|] eqn:E1.
    + split; [discriminate | intros [H1 _]; now destruct H1].
    + destruct (trimPrefix marker2 (String c t)) as [r|] eqn:E2.
      * split; [discriminate | intros [_ H2]; now destruct H2].
      * exact IH.
Qed.

End Patterns.

(** ** The query summary (lines 163 to 176) *)

Section QuerySummary.

Local Arguments String.append !_ _.

Lemma extractQuery_marker dump :
  Contains (text dump) marker1 \/ Contains (text dump) marker2 ->
  extractQuery dump = EmptyString.
Proof.
  intros Hm. unfold extractQuery, regexp.FindString.
  fold (normalize (text dump)).
  destruct (regexp.find regEx (normalize (text dump))) as [m|] eqn:E.
  - apply find_regEx_some in E as [-> | ->]; reflexivity.
  - apply find_regEx_none in E as [H1 H2].
    rewrite Contains_normalize in H1, H2 by reflexivity. tauto.
Qed.

Lemma extractQuery_no_marker dump :
  ~ Contains (text dump) marker1 -> ~ Contains (text dump) marker2 ->
  extractQuery dump =
  default EmptyString (regexp.find regex (normalize (text dump))).
Proof.
  intros H1 H2. unfold extractQuery, regexp.FindString.
  fold (normalize (text dump)).
  rewrite <- (Contains_normalize (text dump) marker1) in H1 by reflexivity.
  rewrite <- (Contains_normalize (text dump) marker2) in H2 by reflexivity.
  now rewrite (proj2 (find_regEx_none _) (conj H1 H2)).
Qed.

(** C7, as the spec states it, fails: for a search request whose body is
    an opening brace, a newline and a closing brace, no marker occurs, the
    query field is an opening brace, a blank and a closing brace, and this
    text is no span of the dump. *)
Lemma C7_query_is_no_span_of_the_dump :
  ~ Contains (String.string_of_list_byte searchDump) "_msearch" /\
  ~ Contains (String.string_of_list_byte searchDump) "_bulk" /\
  extractQuery searchDump = "{ }" /\
  ~ Contains (String.string_of_list_byte searchDump) (extractQuery searchDump).
Proof.
  repeat split; try (rewrite <- containsb_spec; vm_compute; discriminate).
Qed.

(** C7, amended.  A dump in which [_msearch] or [_bulk] occurs gives the
    empty query field, whatever braces it has.  Any other dump is searched
    after each of its newlines has been replaced by a blank: the query
    field is the span from the first opening brace to the last closing
    brace, and it is empty when no opening brace is followed by a closing
    one. *)
Theorem C7_query_summary (dump : bytes) :
  (Contains (String.string_of_list_byte dump) "_msearch" \/
   Contains (String.string_of_list_byte dump) "_bulk" ->
   extractQuery dump = EmptyString) /\
  (~ Contains (String.string_of_list_byte dump) "_msearch" ->
   ~ Contains (String.string_of_list_byte dump) "_bulk" ->
   (forall pre mid post,
      normalize (String.string_of_list_byte dump)
        = pre +:+ String "{" (mid +:+ String "}" post) ->
      occurs "{" pre = false -> occurs "}" post = false ->
      extractQuery dump = String "{" (mid +:+ "}")) /\
   ((forall pre mid post,
       normalize (String.string_of_list_byte dump)
         <> pre +:+ String "{" (mid +:+ String "}" post)) ->
    extractQuery dump = EmptyString)).
Proof.
  split; [apply extractQuery_marker|].
  intros H1 H2. rewrite (extractQuery_no_marker dump H1 H2). split.
  - intros pre mid post Heq Hpre Hpost.
    assert (Hnl := normalize_no_newline (text dump)).
    rewrite Heq in Hnl |- *.
    rewrite occurs_append in Hnl. apply orb_false_iff in Hnl as [_ Hnl].
    simpl in Hnl. rewrite occurs_append in Hnl.
    apply orb_false_iff in Hnl as [Hmid _].
    now rewrite find_regex_span.
  - intros Hno. now rewrite find_regex_none.
Qed.

(** The theorem at work: the bulk dump gives the empty field, the search
    dump the normalized span. *)
Lemma C7_query_summary_witness :
  extractQuery bulkDump = EmptyString /\ extractQuery searchDump = "{ }".
Proof.
  split.
  - apply (proj1 (C7_query_summary bulkDump)). right.
    exists ("POST /idx/" : string),
      (" HTTP/1.1" +:+ crlf +:+ "Host: es" +:+ crlf +:+ crlf
         +:+ "{" +:+ String "010" "}").
    reflexivity.
  - refine (proj1 (proj2 (C7_query_summary searchDump) _ _)
              ("POST /idx/_search HTTP/1.1" +:+ String "013" " Host: es"
                 +:+ String "013" (String " " (String "013" " ")))
              " " EmptyString _ _ _).
    + rewrite <- containsb_spec. vm_compute. discriminate.
    + rewrite <- containsb_spec. vm_compute. discriminate.
    + vm_compute. reflexivity.
    + vm_compute. reflexivity.
    + reflexivity.
Defined.

End QuerySummary.

(** ** The test environment at work *)

Example parseEndpoint_scenario_A :
  @parseEndpoint (testEnv upstreamOK)
    "https://foo.eu-west-1.es.amazonaws.com" blankProxy []
  = (Done testProxy, []).
Proof. vm_compute. reflexivity. Qed.

Example parseEndpoint_scenario_B :
  fst (@parseEndpoint (testEnv upstreamOK)
         "https://bad.endpoint.com" blankProxy []) = Exit 1.
Proof. vm_compute. reflexivity. Qed.

Example ServeHTTP_relays :
  match @ServeHTTP (testEnv upstreamOK) testProxy http.newResponseWriter
          searchRequest [] with
  | (Done (_, w), _) =>
      http.rw_status w = Some 201 /\
      http.rw_body w = String.list_byte_of_string "{ok}" /\
      http.rw_Header w !! "Set-Cookie" = Some ["a=1"; "b=2"]
  | _ => False
  end.
Proof. vm_compute. repeat split; reflexivity. Qed.

(** ** Endpoint resolution: [parseEndpoint] *)

Section Endpoint.

Context `{Env}.

Lemma scheme_spec (x : string) :
  (x = "http" \/ x = "https" -> scheme x = x) /\
  (x <> "http" -> x <> "https" -> scheme x = "https").
Proof.
  unfold scheme.
  destruct (String.eqb_spec x "http") as [->|H1]; [now split|].
  destruct (String.eqb_spec x "https") as [->|H2]; [now split|].
  split; [intros [?|?]; congruence | reflexivity].
Qed.

(** How [parseEndpoint] ends, case by case. *)
Lemma parseEndpoint_run (ep : string) (p : proxy) (tr : Trace) :
  match url_Parse ep with
  | Err _ =>
      exists msg, parseEndpoint ep p tr = (Exit 1, [EvLog (LogText msg)])
  | Ok link =>
      let labels := strings.Split (url.Host link) "." in
      if String.eqb (url.Host link) EmptyString then
        exists msg,
          parseEndpoint ep p tr = (Exit 1, [EvLog (LogText msg)])
      else if (length labels =? 5)%nat then
        parseEndpoint ep p tr =
        (Done (set_Endpoint (scheme (url.Scheme link)) (url.Host link)
                 (default EmptyString (labels !! 1%nat))
                 (default EmptyString (labels !! 2%nat)) p), [])
      else
        exists msg,
          parseEndpoint ep p tr = (Exit 1, [EvLog (LogText msg)])
  end.
Proof.
  unfold parseEndpoint. destruct (url_Parse ep) as [link|e].
  - cbn [url.Host url.Scheme url.set_Scheme].
    destruct (String.eqb (url.Host link) EmptyString); [now eexists|].
    destruct (length (strings.Split (url.Host link) ".") =? 5)%nat;
      [reflexivity | now eexists].
  - now eexists.
Qed.

(** A fatal [parseEndpoint] ends [main] with no request served. *)
Lemma main_fatal_endpoint (os_Args : list string) (fl : Flags)
  (inbound : list http.Request) (tr : Trace) :
  (forall p tr', exists new, parseEndpoint (endpoint fl) p tr' = (Exit 1, new)) ->
  exists new, main os_Args fl inbound tr = ([], Exit 1, new).
Proof.
  intros Hfatal. unfold main.
  destruct (length os_Args <? 3)%nat; [now eexists|].
  unfold bind at 1.
  match goal with
  | |- context [parseEndpoint (endpoint fl) ?p tr] =>
      destruct (Hfatal p tr) as [new ->]
  end.
  now eexists.
Qed.

(** C9: the local function [scheme] keeps [http] and [https] and sends
    every other scheme, the empty one included, to [https]; and whenever
    the resolution of an endpoint succeeds, the scheme of the proxy is
    that function of the scheme [url.Parse] found. *)
Theorem C9_scheme_normalized (ep : string) (p p' : proxy)
  (tr new : Trace) :
  parseEndpoint ep p tr = (Done p', new) ->
  (forall x : string,
     (x = "http" \/ x = "https" -> scheme x = x) /\
     (x <> "http" -> x <> "https" -> scheme x = "https")) /\
  scheme EmptyString = "https" /\
  exists link,
    url_Parse ep = Ok link /\
    (url.Scheme link = "http" \/ url.Scheme link = "https" ->
     Scheme p' = url.Scheme link) /\
    (url.Scheme link <> "http" -> url.Scheme link <> "https" ->
     Scheme p' = "https").
Proof.
  intros Hrun. split; [apply scheme_spec|]. split; [reflexivity|].
  pose proof (parseEndpoint_run ep p tr) as Hcases.
  destruct (url_Parse ep) as [link|e].
  - exists link. split; [reflexivity|]. cbv zeta in Hcases.
    destruct (String.eqb (url.Host link) EmptyString).
    { destruct Hcases as [msg Hmsg]. congruence. }
    destruct (length (strings.Split (url.Host link) ".") =? 5)%nat.
    + rewrite Hcases in Hrun. injection Hrun as <- <-.
      cbn [Scheme set_Endpoint]. apply scheme_spec.
    + destruct Hcases as [msg Hmsg]. congruence.
  - destruct Hcases as [msg Hmsg]. congruence.
Qed.

(** C3: when the authority [url.Parse] found splits at its dots into
    exactly five labels, [parseEndpoint] returns with the region set to
    label 1 and the service to label 2; with any other number of labels it
    exits with status 1 after logging an error, and so does [main], which
    has then served no request. *)
Theorem C3_five_labels (ep : string) (link : url.URL) (p : proxy)
  (tr : Trace) :
  url_Parse ep = Ok link ->
  let labels := strings.Split (url.Host link) "." in
  (length labels = 5%nat ->
   exists region service p',
     labels !! 1%nat = Some region /\ labels !! 2%nat = Some service /\
     parseEndpoint ep p tr = (Done p', []) /\
     Region p' = region /\ Service p' = service /\
     Host p' = url.Host link) /\
  (length labels <> 5%nat ->
   (exists msg,
      parseEndpoint ep p tr = (Exit 1, [EvLog (LogText msg)])) /\
   forall os_Args fl inbound,
     endpoint fl = ep ->
     exists new, main os_Args fl inbound tr = ([], Exit 1, new)).
Proof.
  intros Hparse labels.
  assert (Hrun := fun p tr => parseEndpoint_run ep p tr).
  rewrite Hparse in Hrun. cbv zeta in Hrun. fold labels in Hrun. split.
  - intros Hlen.
    destruct (labels !! 1%nat) as [region|] eqn:E1;
      [|apply lookup_ge_None in E1; lia].
    destruct (labels !! 2%nat) as [service|] eqn:E2;
      [|apply lookup_ge_None in E2; lia].
    specialize (Hrun p tr).
    destruct (String.eqb_spec (url.Host link) EmptyString) as [Hhost|_].
    { subst labels. rewrite Hhost in Hlen. discriminate. }
    rewrite Hlen in Hrun. cbn [Nat.eqb] in Hrun.
    eexists region, service, _. rewrite Hrun. now repeat split.
  - intros Hlen.
    assert (Hfatal : forall p tr, exists msg,
               parseEndpoint ep p tr = (Exit 1, [EvLog (LogText msg)])).
    { intros q tq. specialize (Hrun q tq).
      destruct (String.eqb (url.Host link) EmptyString); [exact Hrun|].
      destruct (Nat.eqb_spec (length labels) 5); [contradiction | exact Hrun]. }
    split; [apply Hfatal|].
    intros os_Args fl inbound Hfl. apply main_fatal_endpoint.
    intros q tq. rewrite Hfl. destruct (Hfatal q tq) as [msg ->]. now eexists.
Qed.

End Endpoint.

(** The two theorems on concrete endpoints, in the test environment. *)

Lemma C9_scheme_normalized_witness :
  @parseEndpoint (testEnv upstreamOK)
    "ftp://foo.eu-west-1.es.amazonaws.com" blankProxy []
  = (Done testProxy, []) /\
  Scheme testProxy = "https".
Proof.
  assert (Hrun : @parseEndpoint (testEnv upstreamOK)
                   "ftp://foo.eu-west-1.es.amazonaws.com" blankProxy []
                 = (Done testProxy, [])) by (vm_compute; reflexivity).
  split; [exact Hrun|].
  destruct (@C9_scheme_normalized (testEnv upstreamOK) _ _ _ _ _ Hrun)
    as (_ & _ & link & Hparse & _ & Hother).
  vm_compute in Hparse. injection Hparse as <-.
  apply Hother; discriminate.
Defined.

Lemma C3_five_labels_witness :
  (exists p',
     @parseEndpoint (testEnv upstreamOK)
       "https://foo.eu-west-1.es.amazonaws.com" blankProxy [] = (Done p', [])
     /\ Region p' = "eu-west-1" /\ Service p' = "es") /\
  (exists new,
     @main (testEnv upstreamOK) ["aws-es-proxy"; "-endpoint"; "https://bad.endpoint.com"]
       {| endpoint := "https://bad.endpoint.com";
          listenAddress := "127.0.0.1:9200"; verbose := false;
          prettify := false; refresh := 120%float |}
       [searchRequest] [] = ([], Exit 1, new)).
Proof.
  split.
  - destruct (proj1 (@C3_five_labels (testEnv upstreamOK)
                       "https://foo.eu-west-1.es.amazonaws.com" _ blankProxy []
                       eq_refl) eq_refl)
      as (region & service & p' & H1 & H2 & Hrun & Hr & Hs & _).
    exists p'. vm_compute in H1, H2. split; [exact Hrun|]. split; congruence.
  - apply (proj2 (proj2 (@C3_five_labels (testEnv upstreamOK)
                           "https://bad.endpoint.com" _ blankProxy []
                           eq_refl) ltac:(vm_compute; discriminate))).
    reflexivity.
Defined.

(** ** The credential cache: [getSigner] *)

Section Floats.

Lemma SFcompare_antisym (x y : SpecFloat.spec_float) :
  SpecFloat.SFcompare y x = option_map CompOpp (SpecFloat.SFcompare x y).
Proof.
  destruct x as [sx| sx | |sx mx ex], y as [sy|sy| |sy my ey];
    try reflexivity; simpl;
    try (destruct sx; reflexivity); try (destruct sy; reflexivity);
    try (destruct sx, sy; reflexivity).
  destruct sx, sy; try reflexivity; simpl; f_equal;
    rewrite (Z.compare_antisym ex ey);
    destruct (ex ?= ey)%Z; simpl; try reflexivity;
    rewrite (Pos.compare_cont_antisym mx my Eq); reflexivity.
Qed.

(** [x <= y] excludes [y < x], also for the values that are no numbers. *)
Lemma float_leb_not_ltb (x y : float) :
  (x <=? y)%float = true -> (y <? x)%float = false.
Proof.
  rewrite leb_spec, ltb_spec. unfold SpecFloat.SFleb, SpecFloat.SFltb.
  rewrite (SFcompare_antisym (Prim2SF x) (Prim2SF y)).
  destruct (SpecFloat.SFcompare (Prim2SF x) (Prim2SF y)) as [[]|];
    simpl; congruence.
Qed.

End Floats.

Section CredentialCache.

Context `{Env}.

(** How [getSigner] runs, case by case. *)
Lemma getSigner_run (p : proxy) (tr : Trace) :
  let now := clock tr in
  let diff := time.Sub now (CredentialsLastUpped p) in
  getSigner p tr =
  if isNil (Credentials p) || (Refresh p <? time.Seconds diff)%float
  then
    let r := session_NewSession (EvNow now :: tr) in
    match r with
    | Ok c =>
        let t := clock (freshLog :: EvNewSession r :: EvNow now :: tr) in
        (Done (set_Credentials c t p, v4.NewSigner c),
         [EvNow t; freshLog; EvNewSession r; EvNow now])
    | Err e => (Panicked (Error e), [EvNewSession r; EvNow now])
    end
  else (Done (p, v4.NewSigner (Credentials p)), [EvNow now]).
Proof.
  cbv zeta. unfold getSigner, time_Now. unfold bind at 1. cbn [app].
  destruct (isNil (Credentials p) || _); [|reflexivity].
  unfold getCredentials, session_Must_NewSession, bind, log_Print, emit,
    time_Now, ret.
  cbn [app]. destruct (session_NewSession _); reflexivity.
Qed.

Lemma getSigner_quiet (p : proxy) (tr new : Trace) o :
  getSigner p tr = (o, new) -> Forall quiet new.
Proof.
  rewrite getSigner_run. cbv zeta.
  destruct (isNil (Credentials p) || _).
  - destruct (session_NewSession _); intros [= <- <-];
      repeat constructor.
  - intros [= <- <-]. repeat constructor.
Qed.

(** [getSigner] never exits the process. *)
Lemma getSigner_no_exit (p : proxy) (tr new : Trace) code :
  getSigner p tr <> (Exit code, new).
Proof.
  rewrite getSigner_run. cbv zeta.
  destruct (isNil (Credentials p) || _); [|discriminate].
  destruct (session_NewSession _); discriminate.
Qed.

(** C4: with credentials cached and [now - lastRefreshedAt], in seconds,
    at most the refresh interval, [getSigner] reads the clock and returns
    a signer on the cached credentials without any ambient lookup.  With
    no credentials cached, or with the interval exceeded, it makes exactly
    one ambient lookup; when the lookup succeeds it reads the clock again,
    stores the credentials and that reading in the proxy and then returns
    the signer on the new credentials; when the lookup fails it panics. *)
Theorem C4_credential_cache (p : proxy) (tr : Trace) :
  let now := clock tr in
  let diff := time.Sub now (CredentialsLastUpped p) in
  (is_Some (Credentials p) ->
   (time.Seconds diff <=? Refresh p)%float = true ->
   exists new,
     getSigner p tr = (Done (p, v4.NewSigner (Credentials p)), new) /\
     fetches new = 0%nat) /\
  (Credentials p = None \/ (Refresh p <? time.Seconds diff)%float = true ->
   exists out new,
     getSigner p tr = (out, new) /\ fetches new = 1%nat /\
     match out with
     | Done (p', signer) =>
         exists c,
           session_NewSession (EvNow now :: tr) = Ok c /\
           Credentials p' = c /\ signer = v4.NewSigner c /\
           new = [EvNow (CredentialsLastUpped p'); freshLog;
                  EvNewSession (Ok c); EvNow now]
     | Panicked _ => exists e, session_NewSession (EvNow now :: tr) = Err e
     | Exit _ => False
     end).
Proof.
  cbv zeta. rewrite getSigner_run. cbv zeta. split.
  - intros [c Hc] Hle. rewrite Hc. cbn [isNil orb].
    rewrite (float_leb_not_ltb _ _ Hle). now eexists.
  - intros Hstale.
    assert (Hcond : isNil (Credentials p)
                    || (Refresh p <? time.Seconds
                          (time.Sub (clock tr) (CredentialsLastUpped p)))%float
                    = true).
    { destruct Hstale as [-> | ->]; [reflexivity | apply orb_true_r]. }
    rewrite Hcond.
    destruct (session_NewSession (EvNow (clock tr) :: tr)) as [c|e] eqn:E.
    + eexists _, _. split; [reflexivity|]. split; [reflexivity|].
      exists c. cbn [Credentials CredentialsLastUpped set_Credentials].
      now repeat split.
    + eexists _, _. split; [reflexivity|]. split; [reflexivity|].
      now exists e.
Qed.

End CredentialCache.

Lemma C4_credential_cache_witness :
  (exists new,
     @getSigner (testEnv upstreamOK) cachedProxy []
     = (Done (cachedProxy, v4.NewSigner (Credentials cachedProxy)), new) /\
     fetches new = 0%nat) /\
  (exists out new,
     @getSigner (testEnv upstreamOK) testProxy [] = (out, new) /\
     fetches new = 1%nat).
Proof.
  split.
  - apply (proj1 (@C4_credential_cache (testEnv upstreamOK) cachedProxy [])).
    + now eexists.
    + vm_compute. reflexivity.
  - destruct (proj2 (@C4_credential_cache (testEnv upstreamOK) testProxy [])
                (or_introl eq_refl)) as (out & new & Hrun & Hone & _).
    now exists out, new.
Defined.

(** ** Canonical header keys *)

Section Canonical.

Lemma toUpper_idem (c : ascii) :
  textproto.toUpper (textproto.toUpper c) = textproto.toUpper c.
Proof. destruct c as [[] [] [] [] [] [] [] []]; vm_compute; reflexivity. Qed.

Lemma toLower_idem (c : ascii) :
  textproto.toLower (textproto.toLower c) = textproto.toLower c.
Proof. destruct c as [[] [] [] [] [] [] [] []]; vm_compute; reflexivity. Qed.

Lemma valid_toUpper (c : ascii) :
  textproto.validHeaderFieldByte c = true ->
  textproto.validHeaderFieldByte (textproto.toUpper c) = true.
Proof.
  destruct c as [[] [] [] [] [] [] [] []]; vm_compute; intros Hc;
    first [reflexivity | discriminate Hc].
Qed.

Lemma valid_toLower (c : ascii) :
  textproto.validHeaderFieldByte c = true ->
  textproto.validHeaderFieldByte (textproto.toLower c) = true.
Proof.
  destruct c as [[] [] [] [] [] [] [] []]; vm_compute; intros Hc;
    first [reflexivity | discriminate Hc].
Qed.

Lemma allValid_canonCase (upper : bool) (s : string) :
  textproto.allValid s = true ->
  textproto.allValid (textproto.canonCase upper s) = true.
Proof.
  revert upper. induction s as [|c s IH]; intros upper; [reflexivity|].
  cbn [textproto.allValid textproto.canonCase].
  intros [Hc Hs]%andb_true_iff. apply andb_true_iff. split.
  - destruct upper; [now apply valid_toUpper | now apply valid_toLower].
  - now apply IH.
Qed.

Lemma canonCase_idem (upper : bool) (s : string) :
  textproto.canonCase upper (textproto.canonCase upper s)
  = textproto.canonCase upper s.
Proof.
  revert upper. induction s as [|c s IH]; intros upper; [reflexivity|].
  cbn [textproto.canonCase].
  destruct upper; rewrite ?toUpper_idem, ?toLower_idem; now rewrite IH.
Qed.

(** A key that was made canonical is canonical: the keys of the header
    maps that the HTTP client and server build satisfy the hypothesis on
    keys made below. *)
Lemma CanonicalMIMEHeaderKey_idem (k : string) :
  textproto.CanonicalMIMEHeaderKey (textproto.CanonicalMIMEHeaderKey k)
  = textproto.CanonicalMIMEHeaderKey k.
Proof.
  unfold textproto.CanonicalMIMEHeaderKey.
  destruct (textproto.allValid k) eqn:E; [|now rewrite E].
  now rewrite (allValid_canonCase true k E), canonCase_idem.
Qed.

End Canonical.

(** ** Header maps: [copyHeaders] *)

Section Headers.

Implicit Types (h dst src : http.Header) (k : string) (vs : list string).

Lemma values_Add k v h k' :
  values (http.Add k v h) k' =
  if decide (textproto.CanonicalMIMEHeaderKey k = k')
  then values h k' ++ [v] else values h k'.
Proof.
  unfold values, http.Add. cbv zeta.
  destruct (decide (textproto.CanonicalMIMEHeaderKey k = k')) as [<-|Hne].
  - now rewrite lookup_insert_eq.
  - now rewrite lookup_insert_ne.
Qed.

(** The inner loop of [copyHeaders]. *)
Lemma values_Add_all k vs h k' :
  values (foldl (fun dst v => http.Add k v dst) h vs) k' =
  if decide (textproto.CanonicalMIMEHeaderKey k = k')
  then values h k' ++ vs else values h k'.
Proof.
  revert h. induction vs as [|v vs IH]; intros h; cbn [foldl].
  - destruct (decide _); [now rewrite app_nil_r | reflexivity].
  - rewrite IH, values_Add.
    destruct (decide _); [now rewrite <- app_assoc | reflexivity].
Qed.

(** The outer loop, for any order of the visit. *)
Lemma values_copyHeadersIn order dst k' :
  values (copyHeadersIn order dst) k' = values dst k' ++ gathered order k'.
Proof.
  unfold copyHeadersIn. revert dst.
  induction order as [|[k vs] order IH]; intros dst; cbn [foldl gathered].
  - now rewrite app_nil_r.
  - rewrite IH. cbn [fst snd]. rewrite values_Add_all.
    destruct (decide _); [now rewrite <- app_assoc | reflexivity].
Qed.

Lemma gathered_absent order k' :
  Forall (fun kv => textproto.CanonicalMIMEHeaderKey kv.1 = kv.1) order ->
  k' ∉ order.*1 -> gathered order k' = [].
Proof.
  induction 1 as [|[k vs] order Hk _ IH]; [reflexivity|].
  cbn [gathered fmap list_fmap fst] in *. intros Hnot.
  apply not_elem_of_cons in Hnot as [Hne Hnot].
  rewrite IH by assumption. cbn in Hk.
  destruct (decide _) as [Heq|_]; [congruence | reflexivity].
Qed.

(** With canonical keys, each visited once, the visit brings to each key
    the values it has in the source. *)
Lemma gathered_map order src k' :
  order ≡ₚ map_to_list src ->
  (forall k vs, src !! k = Some vs -> textproto.CanonicalMIMEHeaderKey k = k) ->
  gathered order k' = values src k'.
Proof.
  intros Hperm Hcanon.
  assert (Hnodup : NoDup order.*1).
  { rewrite Hperm. apply NoDup_fst_map_to_list. }
  assert (Hkeys : Forall (fun kv => textproto.CanonicalMIMEHeaderKey kv.1 = kv.1)
                    order).
  { apply Forall_forall. intros [k vs] Hin. rewrite Hperm in Hin.
    apply elem_of_map_to_list in Hin. cbn. eauto. }
  assert (Hsrc : src = list_to_map order).
  { rewrite (list_to_map_proper order (map_to_list src) Hnodup Hperm).
    now rewrite list_to_map_to_list. }
  rewrite Hsrc. clear Hsrc Hperm Hcanon.
  induction order as [|[k vs] order IH]; [reflexivity|].
  cbn [gathered list_to_map foldr fmap list_fmap fst] in *.
  apply NoDup_cons in Hnodup as [Hnot Hnodup].
  apply Forall_cons in Hkeys as [Hk Hkeys]. cbn in Hk.
  unfold values in *. rewrite Hk.
  destruct (decide (k = k')) as [<-|Hne].
  - rewrite lookup_insert_eq. cbn.
    now rewrite (gathered_absent order k Hkeys Hnot), app_nil_r.
  - rewrite lookup_insert_ne by assumption. cbn. now apply IH.
Qed.

End Headers.

(** ** The handler: [ServeHTTP] *)

Section Handler.

Context `{Env}.

Lemma DumpRequest_body (r : http.Request) :
  http.req_Body (httputil_DumpRequest r).2
  = dumpedBody <$> http.req_Body r.
Proof.
  unfold httputil_DumpRequest, dumpedBody.
  destruct (http.req_Body r) as [body|] eqn:E; [|exact E].
  unfold io.ReadAll. destruct (io.failure body) eqn:F; cbn; now rewrite F.
Qed.

Lemma DumpRequest_rest (r : http.Request) :
  let r' := (httputil_DumpRequest r).2 in
  http.req_Method r' = http.req_Method r /\
  http.req_URL r' = http.req_URL r /\
  http.req_Header r' = http.req_Header r /\
  http.req_RemoteAddr r' = http.req_RemoteAddr r.
Proof.
  unfold httputil_DumpRequest.
  destruct (http.req_Body r) as [body|]; [|now repeat split].
  unfold io.ReadAll. now destruct (io.failure body).
Qed.

Lemma logRequest_run (p : proxy) (r : http.Request) (dump : bytes)
  (u : url.URL) (resp : http.Response) (t0 : time.Time) (tr : Trace) :
  exists ev, logRequest p r dump u resp t0 tr = (Done tt, ev) /\
             Forall quiet ev.
Proof.
  unfold logRequest.
  destruct (Verbose p); [|eexists; split; [reflexivity | constructor]].
  unfold time_Since, time_Now, bind, ret, emit. cbn [app].
  destruct (Prettify p); cbn [app];
    eexists; (split; [reflexivity | repeat constructor]).
Qed.

(** How [ServeHTTP] runs, case by case, with the events it adds. *)
Lemma ServeHTTP_run (p : proxy) (w : http.ResponseWriter) (r : http.Request)
  (tr : Trace) :
  let t0 := clock tr in
  let r' := (httputil_DumpRequest r).2 in
  match http.req_Body r' with
  | None =>
      exists msg, ServeHTTP p w r tr = (Panicked msg, [EvNow t0])
  | Some body =>
  match http_NewRequest (http.req_Method r') (url_String (endpointOf p r'))
          (Some body) with
  | Err err => ServeHTTP p w r tr = (Done (p, respondError err w), [EvNow t0])
  | Ok req0 =>
  match withKbnVersion r' req0 with
  | None => exists msg, ServeHTTP p w r tr = (Panicked msg, [EvNow t0])
  | Some req1 =>
  match getSigner p (EvNow t0 :: tr) with
  | (Exit code, ev) => ServeHTTP p w r tr = (Exit code, ev ++ [EvNow t0])
  | (Panicked msg, ev) => ServeHTTP p w r tr = (Panicked msg, ev ++ [EvNow t0])
  | (Done (p1, signer), ev) =>
      let tr1 := ev ++ EvNow t0 :: tr in
      let payload := (replaceBody req1).1 in
      let req2 := (replaceBody req1).2 in
      let t1 := clock tr1 in
      let sign := EvSign req2 payload (Service p1) (Region p1) t1 in
      let req3 :=
        http.set_Header
          (v4_signedHeader signer req2 payload (Service p1) (Region p1) t1)
          req2 in
      let tr2 := sign :: EvNow t1 :: tr1 in
      let sent := roundTrip tr2 req3 in
      let evs := EvDo req3 sent :: sign :: EvNow t1 :: ev ++ [EvNow t0] in
      match sent with
      | Err err =>
          ServeHTTP p w r tr =
          (Done (p1, respondError err w), EvLog (LogText (Error err)) :: evs)
      | Ok resp =>
          let h := copyHeadersIn
                     (rangeOrder (EvDo req3 sent :: tr2) (http.resp_Header resp))
                     (http.rw_Header w) in
          match io.failure (http.resp_Body resp) with
          | Some err =>
              ServeHTTP p w r tr =
              (Exit 1, EvLog (LogText (Error err)) :: evs)
          | None =>
              exists lg,
                Forall quiet lg /\
                ServeHTTP p w r tr =
                (Done (p1,
                       http.Write (io.pending (http.resp_Body resp))
                         (http.WriteHeader (http.StatusCode resp)
                            (http.with_Header h w))),
                 lg ++ evs)
          end
      end
  end end end end.
Proof.
  cbv zeta. remember (ServeHTTP p w r tr) as run eqn:Hrun.
  unfold ServeHTTP, time_Now in Hrun. unfold bind at 1 in Hrun.
  cbn [app] in Hrun.
  destruct (httputil_DumpRequest r) as [dumped r']. cbn [snd].
  destruct (http.req_Body r') as [body|]; [|subst run; now eexists].
  fold (endpointOf p r') in Hrun.
  destruct (http_NewRequest _ _ _) as [req0|err]; [|now subst run].
  unfold withKbnVersion.
  destruct (http.req_Header r' !! "Kbn-Version") as [[|v0 vals]|].
  1: subst run; unfold bind at 1; unfold panic; now eexists.
  all: unfold bind at 1 in Hrun; unfold ret at 1 in Hrun; cbn [app] in Hrun.
  all: match type of Hrun with
       | context [replaceBody ?x] => generalize dependent x; intros req1 Hrun
       end.
  all: unfold bind at 1 in Hrun.
  all: destruct (getSigner p (EvNow (clock tr) :: tr))
         as [[[p1 signer]|code|msg] ev];
       [| subst run; cbn [app]; rewrite ?app_nil_r; reflexivity ..].
  all: cbn [fst snd] in Hrun |- *.
  all: destruct (replaceBody req1) as [payload req2]; cbn [fst snd] in Hrun |- *.
  all: cbv [bind v4_Sign http_Do emit ret copyHeaders log_Fatal log_Print
              os_Exit io.Copy time_Now fst snd] in Hrun;
       cbn [app] in Hrun.
  all: destruct (roundTrip _ _) as [resp|err];
       [| subst run; cbn [app]; now rewrite ?app_nil_r].
  all: destruct (io.failure (http.resp_Body resp)) as [err|];
       [subst run; cbn [app]; now rewrite ?app_nil_r|].
  all: match type of Hrun with
       | context [logRequest ?a ?b ?c ?d ?e ?f ?g] =>
           destruct (logRequest_run a b c d e f g) as (lg & Hlg & Hquiet);
           rewrite Hlg in Hrun
       end.
  all: exists lg; split; [exact Hquiet|].
  all: subst run; cbn [app]; rewrite ?app_nil_r, <- ?app_assoc; reflexivity.
Qed.

Lemma quiet_In (l : Trace) (e : Event) : Forall quiet l -> In e l -> quiet e.
Proof. intros Hq Hin. exact (proj1 (List.Forall_forall quiet l) Hq e Hin). Qed.

(** [getSigner] changes nothing but the credentials and their date. *)
Lemma getSigner_keeps (p p1 : proxy) (signer : v4.Signer) (tr ev : Trace) :
  getSigner p tr = (Done (p1, signer), ev) ->
  Scheme p1 = Scheme p /\ Host p1 = Host p /\ Region p1 = Region p /\
  Service p1 = Service p /\ signer = v4.NewSigner (Credentials p1).
Proof.
  rewrite getSigner_run. cbv zeta.
  destruct (isNil (Credentials p) || _).
  - destruct (session_NewSession _); [|discriminate].
    intros [= <- <- <-]. now repeat split.
  - intros [= <- <- <-]. now repeat split.
Qed.

Lemma NewRequest_Ok (method urlStr : string) (body : option io.Reader)
  (req : http.Request) :
  http_NewRequest method urlStr body = Ok req ->
  http.req_Method req = (if String.eqb method EmptyString then "GET" else method) /\
  http.req_Header req = ∅ /\
  http.req_Body req = body /\
  exists u, url_Parse urlStr = Ok u /\
            http.req_URL req
            = url.set_Host (http.removeEmptyPort (url.Host u)) u.
Proof.
  unfold http_NewRequest. destruct (negb _); [discriminate|].
  destruct (url_Parse urlStr) as [u|e]; [|discriminate].
  intros [= <-]. cbn. repeat split. now exists u.
Qed.

Lemma withKbnVersion_Some (r req req1 : http.Request) :
  withKbnVersion r req = Some req1 ->
  http.req_Method req1 = http.req_Method req /\
  http.req_URL req1 = http.req_URL req /\
  http.req_Body req1 = http.req_Body req /\
  http.req_Header req1 =
  match http.req_Header r !! "Kbn-Version" with
  | Some (v0 :: _) => http.Set_ "Kbn-Version" v0 (http.req_Header req)
  | _ => http.req_Header req
  end.
Proof.
  unfold withKbnVersion.
  destruct (http.req_Header r !! "Kbn-Version") as [[|v0 vals]|];
    [discriminate | |]; intros [= <-]; now repeat split.
Qed.

Lemma replaceBody_Some (req : http.Request) (body : io.Reader) :
  http.req_Body req = Some body ->
  replaceBody req =
  (io.pending body, http.set_Body (Some (io.NewReader (io.pending body))) req).
Proof. unfold replaceBody. now intros ->. Qed.

(** Every signature and every round trip among the events of one call:
    there is at most one signature, and a round trip follows it. *)
Lemma ServeHTTP_events (p : proxy) (w : http.ResponseWriter)
  (r : http.Request) (tr : Trace) out (new : Trace) :
  ServeHTTP p w r tr = (out, new) ->
  (forall reqS payload service region t,
     In (EvSign reqS payload service region t) new ->
     service = Service p /\ region = Region p /\ Signed p r reqS payload) /\
  (forall req sent, In (EvDo req sent) new -> Sent p w r req sent out new) /\
  (forall reqS payload service region t reqS' payload' service' region' t',
     In (EvSign reqS payload service region t) new ->
     In (EvSign reqS' payload' service' region' t') new ->
     reqS' = reqS /\ payload' = payload /\ t' = t).
Proof.
  intros Hrun. pose proof (ServeHTTP_run p w r tr) as R. cbv zeta in R.
  pose proof (DumpRequest_body r) as Hbody.
  destruct (DumpRequest_rest r) as (Hm & Hu & Hh & _).
  assert (Hep : endpointOf p (httputil_DumpRequest r).2 = endpointOf p r)
    by (unfold endpointOf; now rewrite Hu).
  assert (Hkbn : forall q, withKbnVersion (httputil_DumpRequest r).2 q
                           = withKbnVersion r q)
    by (intros q; unfold withKbnVersion; now rewrite Hh).
  rewrite Hep, Hm in R. clear Hep Hm Hu.
  assert (Hnone : forall ev t0,
             Forall quiet ev -> new = ev ++ [EvNow t0] ->
             forall e, In e new -> quiet e).
  { intros ev t0 Hq -> e Hin. apply in_app_or in Hin as [Hin | Hin].
    - exact (quiet_In _ _ Hq Hin).
    - cbn in Hin. destruct Hin as [<- | []]. exact I. }
  assert (Hearly : forall ev t0,
             Forall quiet ev -> new = ev ++ [EvNow t0] ->
             (forall reqS payload service region t,
                In (EvSign reqS payload service region t) new ->
                service = Service p /\ region = Region p /\
                Signed p r reqS payload) /\
             (forall req sent, In (EvDo req sent) new ->
                Sent p w r req sent out new) /\
             (forall reqS payload service region t
                     reqS' payload' service' region' t',
                In (EvSign reqS payload service region t) new ->
                In (EvSign reqS' payload' service' region' t') new ->
                reqS' = reqS /\ payload' = payload /\ t' = t)).
  { intros ev t0 Hq Hnew. pose proof (Hnone ev t0 Hq Hnew) as Hall.
    split; [|split]; intros;
      match goal with
      | Hin : In _ new |- _ => destruct (Hall _ Hin)
      end. }
  destruct (http.req_Body (httputil_DumpRequest r).2) as [body'|].
  2: { destruct R as [msg R]. rewrite R in Hrun. injection Hrun as <- <-.
       apply (Hearly [] (clock tr)); [constructor | reflexivity]. }
  destruct (http.req_Body r) as [body|] eqn:Ebody; [|discriminate].
  injection Hbody as ->.
  destruct (http_NewRequest _ _ _) as [req0|err] eqn:Enew.
  2: { rewrite R in Hrun. injection Hrun as <- <-.
       apply (Hearly [] (clock tr)); [constructor | reflexivity]. }
  rewrite Hkbn in R.
  destruct (withKbnVersion r req0) as [req1|] eqn:Ekbn.
  2: { destruct R as [msg R]. rewrite R in Hrun. injection Hrun as <- <-.
       apply (Hearly [] (clock tr)); [constructor | reflexivity]. }
  destruct (getSigner p _) as [[[p1 signer]|code|msg] ev] eqn:Egs.
  2, 3: rewrite R in Hrun; injection Hrun as <- <-;
        apply (Hearly ev (clock tr));
        [exact (getSigner_quiet _ _ _ _ Egs) | reflexivity].
  clear Hearly Hnone.
  pose proof (getSigner_quiet _ _ _ _ Egs) as Hq.
  destruct (getSigner_keeps _ _ _ _ _ Egs) as (_ & _ & Hreg & Hsvc & _).
  rewrite Hreg, Hsvc in R. clear Hreg Hsvc.
  apply NewRequest_Ok in Enew as (Hmeth & Hhdr & Hb0 & Hurl).
  apply withKbnVersion_Some in Ekbn as (Hm1 & Hu1 & Hb1 & Hh1).
  assert (Hrepl := replaceBody_Some req1 (dumpedBody body)
                     ltac:(now rewrite Hb1, Hb0)).
  rewrite Hrepl in R. cbn [fst snd] in R.
  set (payload := io.pending (dumpedBody body)) in *.
  set (req2 := http.set_Body (Some (io.NewReader payload)) req1) in *.
  set (t1 := clock (ev ++ EvNow (clock tr) :: tr)) in *.
  assert (Hsigned : Signed p r req2 payload).
  { constructor.
    - now exists body.
    - reflexivity.
    - cbn. now rewrite Hm1.
    - cbn. now rewrite Hu1.
    - cbn. rewrite Hh1, Hhdr. reflexivity. }
  set (req3 := http.set_Header _ req2) in *.
  set (sent0 := roundTrip _ req3) in *.
  assert (Hevents :
    forall lg, Forall quiet lg ->
      new = lg ++ EvDo req3 sent0
                :: EvSign req2 payload (Service p) (Region p) t1
                :: EvNow t1 :: ev ++ [EvNow (clock tr)] ->
      (forall reqS payload' service region t,
         In (EvSign reqS payload' service region t) new ->
         EvSign reqS payload' service region t
         = EvSign req2 payload (Service p) (Region p) t1) /\
      (forall req sent, In (EvDo req sent) new ->
         req = req3 /\ sent = sent0 /\
         In (EvSign req2 payload (Service p) (Region p) t1) new)).
  { intros lg Hlg ->. split.
    - intros reqS payload' service region t Hin.
      apply in_app_or in Hin as [Hin | Hin];
        [apply (quiet_In _ _ Hlg) in Hin; destruct Hin|].
      cbn [In] in Hin. destruct Hin as [Hin | [Hin | [Hin | Hin]]];
        try discriminate.
      + now symmetry.
      + apply in_app_or in Hin as [Hin | Hin];
          [apply (quiet_In _ _ Hq) in Hin; destruct Hin
          | cbn in Hin; intuition discriminate].
    - intros req sent Hin.
      apply in_app_or in Hin as [Hin | Hin];
        [apply (quiet_In _ _ Hlg) in Hin; destruct Hin|].
      cbn [In] in Hin. destruct Hin as [Hin | [Hin | [Hin | Hin]]];
        try discriminate.
      + injection Hin as <- <-. split; [reflexivity|]. split; [reflexivity|].
        apply in_or_app. right. right. now left.
      + apply in_app_or in Hin as [Hin | Hin];
          [apply (quiet_In _ _ Hq) in Hin; destruct Hin
          | cbn in Hin; intuition discriminate]. }
  assert (Hfinish :
    forall lg, Forall quiet lg ->
      new = lg ++ EvDo req3 sent0
                :: EvSign req2 payload (Service p) (Region p) t1
                :: EvNow t1 :: ev ++ [EvNow (clock tr)] ->
      match sent0 with
      | Err err => exists p1, out = Done (p1, respondError err w)
      | Ok resp =>
          match io.failure (http.resp_Body resp) with
          | Some _ => out = Exit 1
          | None =>
              exists p1 order,
                order ≡ₚ map_to_list (http.resp_Header resp) /\
                out = Done (p1,
                            http.Write (io.pending (http.resp_Body resp))
                              (http.WriteHeader (http.StatusCode resp)
                                 (http.with_Header
                                    (copyHeadersIn order (http.rw_Header w))
                                    w)))
          end
      end ->
      (forall reqS payload' service region t,
         In (EvSign reqS payload' service region t) new ->
         service = Service p /\ region = Region p /\
         Signed p r reqS payload') /\
      (forall req sent, In (EvDo req sent) new ->
         Sent p w r req sent out new) /\
      (forall reqS payload0 service region t
              reqS' payload' service' region' t',
         In (EvSign reqS payload0 service region t) new ->
         In (EvSign reqS' payload' service' region' t') new ->
         reqS' = reqS /\ payload' = payload0 /\ t' = t)).
  { intros lg Hlg Hnew Hout.
    destruct (Hevents lg Hlg Hnew) as [Hs Hd]. split; [|split].
    - intros reqS payload' service region t Hin.
      apply Hs in Hin. injection Hin as -> -> -> -> ->.
      split; [reflexivity|]. split; [reflexivity | exact Hsigned].
    - intros req sent Hin. destruct (Hd req sent Hin) as (-> & -> & Hin').
      constructor.
      + exists req2, payload, signer, t1.
        split; [exact Hin' | split; [exact Hsigned | reflexivity]].
      + exact Hout.
    - intros reqS payload0 service region t reqS' payload' service' region' t'
        Hin Hin'.
      apply Hs in Hin, Hin'. injection Hin as -> -> -> -> ->.
      injection Hin' as -> -> -> -> ->. now repeat split. }
  destruct sent0 as [resp|err] eqn:Esent.
  - destruct (io.failure (http.resp_Body resp)) as [e|] eqn:Efail.
    + rewrite R in Hrun. injection Hrun as <- <-.
      apply (Hfinish [EvLog (LogText (Error e))]);
        [repeat constructor | reflexivity | reflexivity].
    + destruct R as (lg & Hlg & R). rewrite R in Hrun.
      injection Hrun as <- <-.
      apply (Hfinish lg Hlg); [reflexivity|].
      eexists _, _. split; [apply rangeOrder_perm | reflexivity].
  - rewrite R in Hrun. injection Hrun as <- <-.
    apply (Hfinish [EvLog (LogText (Error err))]);
      [repeat constructor | reflexivity | now eexists].
Qed.

(** When the outbound request can be built and a signer is obtained, the
    handler signs and sends. *)
Lemma ServeHTTP_reaches (p : proxy) (w : http.ResponseWriter)
  (r : http.Request) (tr : Trace) out (new : Trace)
  (body : io.Reader) (req0 req1 : http.Request) (p1 : proxy)
  (signer : v4.Signer) (ev : Trace) :
  ServeHTTP p w r tr = (out, new) ->
  http.req_Body r = Some body ->
  http_NewRequest (http.req_Method r) (url_String (endpointOf p r))
    (Some (dumpedBody body)) = Ok req0 ->
  withKbnVersion r req0 = Some req1 ->
  getSigner p (EvNow (clock tr) :: tr) = (Done (p1, signer), ev) ->
  exists reqS t req sent,
    In (EvSign reqS (io.pending (dumpedBody body)) (Service p) (Region p) t)
       new /\
    In (EvDo req sent) new.
Proof.
  intros Hrun Ebody Enew Ekbn Egs.
  pose proof (ServeHTTP_run p w r tr) as R. cbv zeta in R.
  pose proof (DumpRequest_body r) as Hbody.
  destruct (DumpRequest_rest r) as (Hm & Hu & Hh & _).
  assert (Hep : endpointOf p (httputil_DumpRequest r).2 = endpointOf p r)
    by (unfold endpointOf; now rewrite Hu).
  assert (Hkbn : forall q, withKbnVersion (httputil_DumpRequest r).2 q
                           = withKbnVersion r q)
    by (intros q; unfold withKbnVersion; now rewrite Hh).
  rewrite Hep, Hm, Hbody, Ebody in R. cbn [fmap option_fmap option_map] in R.
  rewrite Enew, Hkbn, Ekbn, Egs in R.
  destruct (getSigner_keeps _ _ _ _ _ Egs) as (_ & _ & Hreg & Hsvc & _).
  rewrite Hreg, Hsvc in R.
  apply NewRequest_Ok in Enew as (_ & _ & Hb0 & _).
  apply withKbnVersion_Some in Ekbn as (_ & _ & Hb1 & _).
  rewrite (replaceBody_Some req1 (dumpedBody body)) in R
    by (now rewrite Hb1, Hb0).
  cbn [fst snd] in R.
  assert (Hin : forall lg A B C rest,
             new = lg ++ A :: B :: C :: rest ->
             In B new /\ In A new).
  { intros lg A B C rest ->. split; apply in_or_app; right; cbn; auto. }
  destruct (roundTrip _ _) as [resp|err].
  - destruct (io.failure (http.resp_Body resp)).
    + rewrite R in Hrun. injection Hrun as <- <-.
      eexists _, _, _, _.
      apply (Hin [EvLog _] _ _ _ _ eq_refl).
    + destruct R as (lg & _ & R). rewrite R in Hrun.
      injection Hrun as <- <-.
      eexists _, _, _, _. apply (Hin lg _ _ _ _ eq_refl).
  - rewrite R in Hrun. injection Hrun as <- <-.
    eexists _, _, _, _. apply (Hin [EvLog _] _ _ _ _ eq_refl).
Qed.

End Handler.

(** ** The claims on the handler *)

Section HandlerClaims.

Context `{Env}.

(** C1: when the inbound body delivers a non-empty byte sequence, every
    payload handed to the signer is that sequence, the request handed to
    the signer and every request sent upstream carry that sequence as
    their body, and a request is sent only after it was signed; and the
    handler does sign and send whenever the outbound request can be built
    and a signer is obtained. *)
Theorem C1_body_bytes (p : proxy) (w : http.ResponseWriter)
  (r : http.Request) (tr : Trace) out (new : Trace) (body : io.Reader) :
  http.req_Body r = Some body ->
  io.failure body = None ->
  io.pending body <> [] ->
  ServeHTTP p w r tr = (out, new) ->
  (forall reqS payload service region t,
     In (EvSign reqS payload service region t) new ->
     payload = io.pending body /\ wireBody reqS = io.pending body) /\
  (forall req sent,
     In (EvDo req sent) new ->
     wireBody req = io.pending body /\
     exists reqS service region t,
       In (EvSign reqS (io.pending body) service region t) new) /\
  (forall req0 req1 p1 signer ev,
     http_NewRequest (http.req_Method r) (url_String (endpointOf p r))
       (Some (io.NewReader (io.pending body))) = Ok req0 ->
     withKbnVersion r req0 = Some req1 ->
     getSigner p (EvNow (clock tr) :: tr) = (Done (p1, signer), ev) ->
     exists reqS service region t req sent,
       In (EvSign reqS (io.pending body) service region t) new /\
       In (EvDo req sent) new).
Proof.
  intros Ebody Hok _ Hrun.
  destruct (ServeHTTP_events p w r tr out new Hrun) as (Hsign & Hdo & _).
  assert (Hdump : dumpedBody body = io.NewReader (io.pending body))
    by (unfold dumpedBody; now rewrite Hok).
  assert (Hpay : forall reqS payload, Signed p r reqS payload ->
                   payload = io.pending body /\ wireBody reqS = io.pending body).
  { intros reqS payload [(b & Hb & ->) Hwire _ _ _].
    rewrite Ebody in Hb. injection Hb as <-. rewrite Hdump in *.
    unfold wireBody. now rewrite Hwire. }
  split; [|split].
  - intros reqS payload service region t Hin.
    destruct (Hsign _ _ _ _ _ Hin) as (_ & _ & HS). now apply Hpay.
  - intros req sent Hin.
    destruct (Hdo _ _ Hin) as [(reqS & payload & signer & t & Hin' & HS & ->) _].
    destruct (Hpay _ _ HS) as [-> Hw]. split; [exact Hw | eauto].
  - intros req0 req1 p1 signer ev Enew Ekbn Egs. rewrite <- Hdump in Enew.
    destruct (ServeHTTP_reaches p w r tr out new body req0 req1 p1 signer ev
                Hrun Ebody Enew Ekbn Egs) as (reqS & t & req & sent & H1 & H2).
    rewrite Hdump in H1. cbn in H1. eauto 10.
Qed.


(** The server goes on after a handler that returned. *)
Lemma ListenAndServe_cons_Done (p p1 : proxy) (r : http.Request)
  (rest : list http.Request) (tr new : Trace) (w' : http.ResponseWriter) :
  ServeHTTP p http.newResponseWriter r tr = (Done (p1, w'), new) ->
  ListenAndServe p (r :: rest) tr =
  (let '(replies, o, new') := ListenAndServe p1 rest (new ++ tr) in
   (Replied w' :: replies, o, new' ++ new)).
Proof. intros Hrun. cbn [ListenAndServe]. now rewrite Hrun. Qed.

(** The server stops with a handler that exits. *)
Lemma ListenAndServe_cons_Exit (p : proxy) (r : http.Request)
  (rest : list http.Request) (tr new : Trace) (code : Z) :
  ServeHTTP p http.newResponseWriter r tr = (Exit code, new) ->
  ListenAndServe p (r :: rest) tr = ([], Exit code, new).
Proof. intros Hrun. cbn [ListenAndServe]. now rewrite Hrun. Qed.

(** C5: when the round trip of a request fails, the handler returns
    with the reply it wrote on the fresh writer of the server: status
    400, the text of the error as the body and no header; the server then
    handles the requests that follow. *)
Theorem C5_transport_failure (p : proxy) (r : http.Request) (tr : Trace)
  out (new : Trace) (req : http.Request) (err : error) :
  ServeHTTP p http.newResponseWriter r tr = (out, new) ->
  In (EvDo req (Err err)) new ->
  exists p1 w',
    out = Done (p1, w') /\
    http.rw_status w' = Some http.StatusBadRequest /\
    http.StatusBadRequest = 400 /\
    http.rw_body w' = String.list_byte_of_string (Error err) /\
    http.rw_Header w' = ∅ /\
    forall rest,
      ListenAndServe p (r :: rest) tr =
      (let '(replies, o, new') := ListenAndServe p1 rest (new ++ tr) in
       (Replied w' :: replies, o, new' ++ new)).
Proof.
  intros Hrun Hin.
  destruct (ServeHTTP_events _ _ _ _ _ _ Hrun) as (_ & Hdo & _).
  destruct (Hdo _ _ Hin) as [_ (p1 & ->)].
  exists p1, (respondError err http.newResponseWriter).
  split; [reflexivity|]. split; [reflexivity|]. split; [reflexivity|].
  split; [reflexivity|]. split; [reflexivity|].
  intros rest. now apply ListenAndServe_cons_Done.
Qed.

(** C6: when the round trip gives a response whose body is read to its
    end, and the keys of its header map are canonical (as the client
    delivers them), the handler returns with a reply on the fresh writer
    of the server that has, for every key, the values of the response in
    their order, and nothing else; the status code of the response; and
    the bytes of its body. *)
Theorem C6_response_relayed (p : proxy) (r : http.Request) (tr : Trace)
  out (new : Trace) (req : http.Request) (resp : http.Response) :
  ServeHTTP p http.newResponseWriter r tr = (out, new) ->
  In (EvDo req (Ok resp)) new ->
  io.failure (http.resp_Body resp) = None ->
  (forall k vs, http.resp_Header resp !! k = Some vs ->
                textproto.CanonicalMIMEHeaderKey k = k) ->
  exists p1 w',
    out = Done (p1, w') /\
    (forall k, values (http.rw_Header w') k
               = values (http.resp_Header resp) k) /\
    http.rw_status w' = Some (http.StatusCode resp) /\
    http.rw_body w' = io.pending (http.resp_Body resp).
Proof.
  intros Hrun Hin Hbody Hcanon.
  destruct (ServeHTTP_events _ _ _ _ _ _ Hrun) as (_ & Hdo & _).
  destruct (Hdo _ _ Hin) as [_ Hout]. rewrite Hbody in Hout.
  destruct Hout as (p1 & order & Hperm & ->).
  eexists p1, _. split; [reflexivity|]. split; [|split; reflexivity].
  intros k. cbn [http.Write http.WriteHeader http.with_Header
                 http.newResponseWriter http.rw_Header http.rw_status].
  rewrite values_copyHeadersIn, (gathered_map order _ k Hperm Hcanon).
  reflexivity.
Qed.

(** C8: when the round trip gives a response whose body fails while it is
    read, the handler exits the process with status 1; the server ends
    there, and the requests that follow get no reply. *)
Theorem C8_copy_failure_is_fatal (p : proxy) (r : http.Request) (tr : Trace)
  out (new : Trace) (req : http.Request) (resp : http.Response) (e : error) :
  ServeHTTP p http.newResponseWriter r tr = (out, new) ->
  In (EvDo req (Ok resp)) new ->
  io.failure (http.resp_Body resp) = Some e ->
  out = Exit 1 /\
  forall rest, ListenAndServe p (r :: rest) tr = ([], Exit 1, new).
Proof.
  intros Hrun Hin Hfail.
  destruct (ServeHTTP_events _ _ _ _ _ _ Hrun) as (_ & Hdo & _).
  destruct (Hdo _ _ Hin) as [_ Hout]. rewrite Hfail in Hout. subst out.
  split; [reflexivity|]. intros rest. now apply ListenAndServe_cons_Exit.
Qed.

(** C10: [replaceBody] always returns a payload and a request, and no
    error.  For the nil body the payload is empty and the request is
    unchanged.  For any other body the payload is what the read
    delivered, whether it ended with an error or not, and the request
    gets a body that delivers the payload.  In the handler a body whose
    read fails changes nothing in the course of events: whenever the
    outbound request can be built and a signer is obtained, the bytes
    [replaceBody] read are signed and sent. *)
Theorem C10_body_buffering :
  (forall req, exists payload req', replaceBody req = (payload, req')) /\
  (forall req, http.req_Body req = None -> replaceBody req = ([], req)) /\
  (forall req body,
     http.req_Body req = Some body ->
     replaceBody req =
     (io.pending body,
      http.set_Body (Some (io.NewReader (io.pending body))) req)) /\
  (forall p w r tr out new body req0 req1 p1 signer ev,
     ServeHTTP p w r tr = (out, new) ->
     http.req_Body r = Some body ->
     http_NewRequest (http.req_Method r) (url_String (endpointOf p r))
       (Some (dumpedBody body)) = Ok req0 ->
     withKbnVersion r req0 = Some req1 ->
     getSigner p (EvNow (clock tr) :: tr) = (Done (p1, signer), ev) ->
     (replaceBody req1).1 = io.pending (dumpedBody body) /\
     exists reqS t req sent,
       In (EvSign reqS (replaceBody req1).1 (Service p) (Region p) t) new /\
       In (EvDo req sent) new /\
       wireBody req = (replaceBody req1).1).
Proof.
  split; [|split; [|split]].
  - intros req. destruct (replaceBody req) as [payload req']. eauto.
  - intros req Hnil. unfold replaceBody. now rewrite Hnil.
  - intros req body. apply replaceBody_Some.
  - intros p w r tr out new body req0 req1 p1 signer ev Hrun Ebody Enew Ekbn Egs.
    destruct (ServeHTTP_reaches p w r tr out new body req0 req1 p1 signer ev
                Hrun Ebody Enew Ekbn Egs) as (reqS & t & req & sent & H1 & H2).
    destruct (ServeHTTP_events _ _ _ _ _ _ Hrun) as (Hsign & Hdo & Huniq).
    assert (Hpay : (replaceBody req1).1 = io.pending (dumpedBody body)).
    { apply NewRequest_Ok in Enew as (_ & _ & Hb0 & _).
      apply withKbnVersion_Some in Ekbn as (_ & _ & Hb1 & _).
      rewrite (replaceBody_Some req1 (dumpedBody body)); [reflexivity|].
      now rewrite Hb1, Hb0. }
    split; [exact Hpay|]. rewrite Hpay.
    exists reqS, t, req, sent. split; [exact H1|]. split; [exact H2|].
    destruct (Hdo _ _ H2)
      as [(reqS' & payload' & sg & t' & Hin' & HS & ->) _].
    destruct (Huniq _ _ _ _ _ _ _ _ _ _ H1 Hin') as (_ & -> & _).
    destruct HS as [_ Hwire _ _ _]. unfold wireBody. cbn.
    now rewrite Hwire.
Qed.

End HandlerClaims.

(** ** The claims on the handler, in the test environment *)


Lemma C1_body_bytes_witness :
  exists reqS payload service region t req sent,
    In (EvSign reqS payload service region t)
       (@ServeHTTP (testEnv upstreamOK) testProxy http.newResponseWriter
          searchRequest []).2 /\
    In (EvDo req sent)
       (@ServeHTTP (testEnv upstreamOK) testProxy http.newResponseWriter
          searchRequest []).2 /\
    payload = String.list_byte_of_string "{q}" /\
    wireBody reqS = String.list_byte_of_string "{q}" /\
    wireBody req = String.list_byte_of_string "{q}".
Proof.
  destruct (@ServeHTTP (testEnv upstreamOK) testProxy http.newResponseWriter
              searchRequest []) as [out new] eqn:Hrun.
  destruct (@C1_body_bytes (testEnv upstreamOK) testProxy
              http.newResponseWriter searchRequest [] out new
              (io.NewReader (String.list_byte_of_string "{q}"))
              eq_refl eq_refl ltac:(discriminate) Hrun)
    as (Hsign & Hdo & Hreach).
  destruct (Hreach _ _ _ _ _ eq_refl eq_refl eq_refl)
    as (reqS & service & region & t & req & sent & Hin1 & Hin2).
  exists reqS, (String.list_byte_of_string "{q}"), service, region, t, req, sent.
  cbn [snd]. split; [exact Hin1|]. split; [exact Hin2|].
  split; [reflexivity|].
  split; [exact (proj2 (Hsign _ _ _ _ _ Hin1)) | exact (proj1 (Hdo _ _ Hin2))].
Defined.


Lemma C5_transport_failure_witness :
  exists p1 w',
    (@ServeHTTP (testEnv upstreamDown) testProxy http.newResponseWriter
       searchRequest []).1 = Done (p1, w') /\
    http.rw_status w' = Some 400 /\
    http.rw_body w' = String.list_byte_of_string (Error refused).
Proof.
  set (run := @ServeHTTP (testEnv upstreamDown) testProxy
                http.newResponseWriter searchRequest []).
  assert (Hrun : run = (run.1, run.2)) by (destruct run; reflexivity).
  assert (Hin : In (EvDo (default searchRequest (sentRequest run.2))
                      (Err refused)) run.2)
    by (vm_compute; repeat first [left; reflexivity | right]).
  destruct (@C5_transport_failure (testEnv upstreamDown) testProxy
              searchRequest [] run.1 run.2 _ _ Hrun Hin) as (p1 & w' & Hout & Hstatus & _ & Hbody & _).
  exists p1, w'. split; [exact Hout|]. split; [exact Hstatus | exact Hbody].
Defined.

Lemma okResponse_canonical (k : string) (vs : list string) :
  http.resp_Header okResponse !! k = Some vs ->
  textproto.CanonicalMIMEHeaderKey k = k.
Proof.
  intros Hk. apply elem_of_map_to_list in Hk.
  assert (Hl : map_to_list (http.resp_Header okResponse)
               ≡ₚ [("Content-Type", ["application/json"]);
                   ("Set-Cookie", ["a=1"; "b=2"])]).
  { unfold okResponse, http.resp_Header.
    rewrite map_to_list_insert by reflexivity.
    now rewrite map_to_list_singleton. }
  rewrite Hl in Hk.
  apply elem_of_cons in Hk as [[= -> _] | Hk]; [reflexivity|].
  apply elem_of_cons in Hk as [[= -> _] | Hk]; [reflexivity|].
  now apply elem_of_nil in Hk.
Qed.

Lemma C6_response_relayed_witness :
  exists p1 w',
    (@ServeHTTP (testEnv upstreamOK) testProxy http.newResponseWriter
       searchRequest []).1 = Done (p1, w') /\
    values (http.rw_Header w') "Set-Cookie" = ["a=1"; "b=2"] /\
    http.rw_status w' = Some 201 /\
    http.rw_body w' = String.list_byte_of_string "{ok}".
Proof.
  set (run := @ServeHTTP (testEnv upstreamOK) testProxy
                http.newResponseWriter searchRequest []).
  assert (Hrun : run = (run.1, run.2)) by (destruct run; reflexivity).
  assert (Hin : In (EvDo (default searchRequest (sentRequest run.2))
                      (Ok okResponse)) run.2)
    by (vm_compute; repeat first [left; reflexivity | right]).
  destruct (@C6_response_relayed (testEnv upstreamOK) testProxy
              searchRequest [] run.1 run.2 _ _ Hrun Hin eq_refl
              okResponse_canonical)
    as (p1 & w' & Hout & Hhdr & Hstatus & Hbody).
  exists p1, w'. split; [exact Hout|].
  split; [exact (Hhdr "Set-Cookie") |]. split; [exact Hstatus | exact Hbody].
Defined.

Lemma C8_copy_failure_is_fatal_witness :
  (@ServeHTTP (testEnv upstreamBroken) testProxy http.newResponseWriter
     searchRequest []).1 = Exit 1 /\
  (@ListenAndServe (testEnv upstreamBroken) testProxy
     [searchRequest; searchRequest] []).1 = ([], Exit 1).
Proof.
  set (run := @ServeHTTP (testEnv upstreamBroken) testProxy
                http.newResponseWriter searchRequest []).
  assert (Hrun : run = (run.1, run.2)) by (destruct run; reflexivity).
  assert (Hin : In (EvDo (default searchRequest (sentRequest run.2))
                      (Ok brokenResponse)) run.2)
    by (vm_compute; repeat first [left; reflexivity | right]).
  destruct (@C8_copy_failure_is_fatal (testEnv upstreamBroken) testProxy
              searchRequest [] run.1 run.2 _ _
              (errors_New "unexpected EOF") Hrun Hin eq_refl)
    as (Hout & Hserve).
  split; [exact Hout|]. now rewrite (Hserve [searchRequest]).
Defined.

Lemma C10_body_buffering_witness :
  (replaceBody brokenRequest).1 = String.list_byte_of_string "{q" /\
  exists reqS t req sent,
    In (EvSign reqS [] "es" "eu-west-1" t)
       (@ServeHTTP (testEnv upstreamOK) testProxy http.newResponseWriter
          brokenRequest []).2 /\
    In (EvDo req sent)
       (@ServeHTTP (testEnv upstreamOK) testProxy http.newResponseWriter
          brokenRequest []).2 /\
    wireBody req = [].
Proof.
  destruct (@C10_body_buffering (testEnv upstreamOK))
    as (_ & _ & Hread & Hserve).
  split.
  - now rewrite (Hread brokenRequest _ eq_refl).
  - destruct (@ServeHTTP (testEnv upstreamOK) testProxy
                http.newResponseWriter brokenRequest []) as [out new] eqn:Hrun.
    destruct (Hserve _ _ _ _ _ _ _ _ _ _ _ _ Hrun eq_refl eq_refl eq_refl
                eq_refl) as (_ & reqS & t & req & sent & H1 & H2 & H3).
    now exists reqS, t, req, sent.
Defined.

(* ===================================================================== *)
(** * Part III: further properties of the code                            *)
(* ===================================================================== *)

(** ** [strings.Split] as [parseEndpoint] uses it *)

Section SplitJoin.

Local Arguments String.append !_ _.

Implicit Types (s cur : string) (sep : ascii).

Lemma splitAcc_not_nil sep cur s : strings.splitAcc sep cur s <> [].
Proof.
  revert cur. induction s as [|c s IH]; intros cur; simpl; [discriminate|].
  destruct (Ascii.eqb c sep); [discriminate | apply IH].
Qed.

Lemma concat_cons (sepS x : string) (l : list string) :
  l <> [] -> String.concat sepS (x :: l) = x +:+ sepS +:+ String.concat sepS l.
Proof. destruct l; [congruence | reflexivity]. Qed.

(** Joining the pieces with the separator gives the string back. *)
Lemma splitAcc_join sep cur s :
  String.concat (String sep EmptyString) (strings.splitAcc sep cur s)
  = cur +:+ s.
Proof.
  revert cur. induction s as [|c s IH]; intros cur; simpl.
  - now rewrite append_nil_r.
  - destruct (Ascii.eqb_spec c sep) as [->|Hne].
    + rewrite concat_cons by apply splitAcc_not_nil. now rewrite IH.
    + rewrite IH, append_assoc. reflexivity.
Qed.

Lemma Split_join s sep :
  String.concat (String sep EmptyString) (strings.Split s sep) = s.
Proof. unfold strings.Split. now rewrite splitAcc_join. Qed.

(** No piece contains the separator. *)
Lemma splitAcc_clean sep cur s :
  occurs sep cur = false ->
  Forall (fun piece => occurs sep piece = false) (strings.splitAcc sep cur s).
Proof.
  revert cur. induction s as [|c s IH]; intros cur Hcur; simpl.
  - now constructor.
  - destruct (Ascii.eqb_spec c sep) as [->|Hne].
    + constructor; [assumption | now apply IH].
    + apply IH. rewrite occurs_append, Hcur. simpl.
      rewrite orb_false_r. now apply Ascii.eqb_neq.
Qed.

Lemma Split_clean s sep :
  Forall (fun piece => occurs sep piece = false) (strings.Split s sep).
Proof. now apply splitAcc_clean. Qed.

End SplitJoin.

(** ** More on [parseEndpoint] *)

Section EndpointMore.

Local Arguments String.append !_ _.

Context `{Env}.

(** [parseEndpoint] returns exactly when [url.Parse] succeeds with a host
    of five labels.  In every other case (the parse fails, the host is
    empty, the host has another number of labels) it logs one line and
    exits with status 1.  It never panics, and a call that returns adds no
    event. *)
Theorem parseEndpoint_returns_iff (ep : string) (p : proxy) (tr : Trace) :
  ((exists p', parseEndpoint ep p tr = (Done p', [])) \/
   (exists msg, parseEndpoint ep p tr = (Exit 1, [EvLog (LogText msg)]))) /\
  ((exists p' new, parseEndpoint ep p tr = (Done p', new)) <->
   (exists link, url_Parse ep = Ok link /\
                 length (strings.Split (url.Host link) ".") = 5%nat)) /\
  (forall e, url_Parse ep = Err e ->
     parseEndpoint ep p tr =
     (Exit 1, [EvLog (LogText ("ERROR: Failed parsing endpoint: " +:+ ep))])) /\
  (forall link, url_Parse ep = Ok link -> url.Host link = EmptyString ->
     parseEndpoint ep p tr =
     (Exit 1,
      [EvLog (LogText ("ERROR: Empty host information in submitted endpoint ("
                         +:+ ep +:+ ")"))])).
Proof.
  pose proof (parseEndpoint_run ep p tr) as R.
  split; [|split; [|split]].
  - destruct (url_Parse ep) as [link|e]; [|now right]. cbv zeta in R.
    destruct (String.eqb (url.Host link) EmptyString); [now right|].
    destruct (length _ =? 5)%nat; [left; eexists; exact R | now right].
  - destruct (url_Parse ep) as [link|e]; cbv zeta in R.
    + destruct (String.eqb_spec (url.Host link) EmptyString) as [Hhost|Hhost].
      { destruct R as [msg R]. split.
        - intros (p' & new & Hrun). congruence.
        - intros (link' & [= <-] & Hlen). rewrite Hhost in Hlen.
          discriminate. }
      destruct (Nat.eqb_spec (length (strings.Split (url.Host link) ".")) 5)
        as [Hlen|Hlen].
      * split; [intros _; now exists link | intros _; eauto].
      * destruct R as [msg R]. split.
        -- intros (p' & new & Hrun). congruence.
        -- intros (link' & [= <-] & Hlen'). contradiction.
    + destruct R as [msg R]. split.
      * intros (p' & new & Hrun). congruence.
      * intros (link & Hparse & _). discriminate.
  - intros e He. unfold parseEndpoint. now rewrite He.
  - intros link Hlink Hhost. unfold parseEndpoint. rewrite Hlink.
    cbn [url.Host url.set_Scheme]. now rewrite Hhost.
Qed.

(** A call of [parseEndpoint] that returns leaves a proxy whose scheme is
    [http] or [https] and whose host is the non-empty host [url.Parse]
    found, port included; the flags, the refresh interval and the
    credential state are those of the proxy it was given. *)
Theorem parseEndpoint_postcondition (ep : string) (p p' : proxy)
  (tr new : Trace) :
  parseEndpoint ep p tr = (Done p', new) ->
  (Scheme p' = "http" \/ Scheme p' = "https") /\
  Host p' <> EmptyString /\
  (exists link, url_Parse ep = Ok link /\ Host p' = url.Host link) /\
  Verbose p' = Verbose p /\ Prettify p' = Prettify p /\
  Refresh p' = Refresh p /\
  CredentialsLastUpped p' = CredentialsLastUpped p /\
  Credentials p' = Credentials p.
Proof.
  intros Hrun. pose proof (parseEndpoint_run ep p tr) as R.
  destruct (url_Parse ep) as [link|e]; cbv zeta in R;
    [|destruct R as [msg R]; congruence].
  destruct (String.eqb_spec (url.Host link) EmptyString) as [Hhost|Hhost];
    [destruct R as [msg R]; congruence|].
  destruct (length _ =? 5)%nat; [|destruct R as [msg R]; congruence].
  rewrite R in Hrun. injection Hrun as <- <-.
  cbn [Scheme Host Verbose Prettify Refresh CredentialsLastUpped Credentials
       set_Endpoint].
  split.
  { unfold scheme.
    destruct (String.eqb_spec (url.Scheme link) "http") as [->|_]; [now left|].
    destruct (String.eqb_spec (url.Scheme link) "https") as [->|_];
      now right. }
  split; [exact Hhost|]. split; [now exists link|]. now repeat split.
Qed.

(** A call of [parseEndpoint] that returns has cut the host at its dots
    into five labels: the host is the first label, the region, the
    service and the two last labels joined by dots, and no label has a dot
    (so a port stays with the last label). *)
Theorem parseEndpoint_host_labels (ep : string) (p p' : proxy)
  (tr new : Trace) :
  parseEndpoint ep p tr = (Done p', new) ->
  exists l0 l3 l4,
    Host p' = l0 +:+ "." +:+ Region p' +:+ "." +:+ Service p' +:+ "."
                 +:+ l3 +:+ "." +:+ l4 /\
    Forall (fun label => occurs "." label = false)
           [l0; Region p'; Service p'; l3; l4].
Proof.
  intros Hrun. pose proof (parseEndpoint_run ep p tr) as R.
  destruct (url_Parse ep) as [link|e]; cbv zeta in R;
    [|destruct R as [msg R]; congruence].
  destruct (String.eqb (url.Host link) EmptyString);
    [destruct R as [msg R]; congruence|].
  destruct (length _ =? 5)%nat eqn:Hlen; [|destruct R as [msg R]; congruence].
  rewrite R in Hrun. injection Hrun as <- <-.
  cbn [Host Region Service set_Endpoint].
  pose proof (Split_join (url.Host link) ".") as Hjoin.
  pose proof (Split_clean (url.Host link) ".") as Hclean.
  apply Nat.eqb_eq in Hlen.
  destruct (strings.Split (url.Host link) ".")
    as [|l0 [|l1 [|l2 [|l3 [|l4 [|l5 rest]]]]]]; try discriminate.
  exists l0, l3, l4. cbn [lookup list_lookup default]. split.
  - rewrite <- Hjoin at 1. reflexivity.
  - exact Hclean.
Qed.

End EndpointMore.

Lemma parseEndpoint_postcondition_witness :
  @parseEndpoint (testEnv upstreamOK)
    "ftp://foo.eu-west-1.es.amazonaws.com:9200/x" blankProxy []
  = (Done (set_Endpoint "https" "foo.eu-west-1.es.amazonaws.com:9200"
             "eu-west-1" "es" blankProxy), []) /\
  Host (set_Endpoint "https" "foo.eu-west-1.es.amazonaws.com:9200"
          "eu-west-1" "es" blankProxy) <> EmptyString.
Proof.
  assert (Hrun : @parseEndpoint (testEnv upstreamOK)
                   "ftp://foo.eu-west-1.es.amazonaws.com:9200/x" blankProxy []
                 = (Done (set_Endpoint "https"
                            "foo.eu-west-1.es.amazonaws.com:9200"
                            "eu-west-1" "es" blankProxy), []))
    by (vm_compute; reflexivity).
  split; [exact Hrun|].
  exact (proj1 (proj2 (@parseEndpoint_postcondition (testEnv upstreamOK)
                         _ _ _ _ _ Hrun))).
Defined.

Lemma parseEndpoint_host_labels_witness :
  exists l0 l3 l4,
    "foo.eu-west-1.es.amazonaws.com:9200"
    = l0 +:+ "." +:+ "eu-west-1" +:+ "." +:+ "es" +:+ "." +:+ l3 +:+ "."
         +:+ l4.
Proof.
  assert (Hrun : @parseEndpoint (testEnv upstreamOK)
                   "ftp://foo.eu-west-1.es.amazonaws.com:9200/x" blankProxy []
                 = (Done (set_Endpoint "https"
                            "foo.eu-west-1.es.amazonaws.com:9200"
                            "eu-west-1" "es" blankProxy), []))
    by (vm_compute; reflexivity).
  destruct (@parseEndpoint_host_labels (testEnv upstreamOK) _ _ _ _ _ Hrun)
    as (l0 & l3 & l4 & Hhost & _).
  now exists l0, l3, l4.
Defined.

Lemma parseEndpoint_returns_iff_witness :
  @parseEndpoint (testEnv upstreamOK) ":9200" blankProxy []
  = (Exit 1, [EvLog (LogText "ERROR: Failed parsing endpoint: :9200")]).
Proof.
  exact (proj1 (proj2 (proj2 (@parseEndpoint_returns_iff (testEnv upstreamOK)
                                ":9200" blankProxy [])))
           (errors_New "missing protocol scheme") eq_refl).
Defined.

(** ** More on [getSigner] *)

Section FloatsMore.

Lemma SFcompare_refl (f : SpecFloat.spec_float) :
  SpecFloat.SFcompare f f <> Some Eq -> f = SpecFloat.S754_nan.
Proof.
  destruct f as [s|s| |s m e]; simpl; try congruence.
  - destruct s; congruence.
  - destruct s; rewrite Z.compare_refl, Pos.compare_cont_refl; simpl;
      congruence.
Qed.

(** A value that is no number is below nothing. *)
Lemma float_nan_not_ltb (x y : float) :
  PrimFloat.is_nan x = true -> (x <? y)%float = false.
Proof.
  unfold PrimFloat.is_nan.
  rewrite FloatAxioms.eqb_spec, FloatAxioms.ltb_spec.
  unfold SpecFloat.SFeqb, SpecFloat.SFltb. intros Hnan.
  assert (Hx : Prim2SF x = SpecFloat.S754_nan).
  { apply SFcompare_refl.
    destruct (SpecFloat.SFcompare (Prim2SF x) (Prim2SF x)) as [[]|];
      simpl in Hnan; congruence. }
  now rewrite Hx.
Qed.

End FloatsMore.

Section CredentialCacheMore.

Context `{Env}.

(** [getSigner] changes nothing in the proxy but the credentials and
    their date, and the signer it returns is on the credentials of the
    proxy it returns. *)
Lemma getSigner_config (p p1 : proxy) (signer : v4.Signer) (tr ev : Trace) :
  getSigner p tr = (Done (p1, signer), ev) ->
  config p1 = config p /\ signer = v4.NewSigner (Credentials p1).
Proof.
  rewrite getSigner_run. cbv zeta.
  destruct (isNil (Credentials p) || _).
  - destruct (session_NewSession _); [|discriminate].
    intros [= <- <- <-]. now split.
  - intros [= <- <- <-]. now split.
Qed.

(** With a refresh interval that is no number ([-refresh NaN]), cached
    credentials are never looked up again, however long ago they were
    fetched: [getSigner] reads the clock and returns the cached ones. *)
Theorem getSigner_nan_refresh (p : proxy) (tr : Trace) :
  PrimFloat.is_nan (Refresh p) = true ->
  is_Some (Credentials p) ->
  getSigner p tr =
  (Done (p, v4.NewSigner (Credentials p)), [EvNow (clock tr)]).
Proof.
  intros Hnan [c Hc]. rewrite getSigner_run. cbv zeta.
  now rewrite Hc, (float_nan_not_ltb _ _ Hnan).
Qed.

End CredentialCacheMore.

Lemma getSigner_nan_refresh_witness :
  @getSigner (testEnv upstreamOK) nanProxy
    [EvNow (testenv.epoch + 1000000 * time.Second)]
  = (Done (nanProxy, v4.NewSigner (Credentials nanProxy)),
     [EvNow (testenv.epoch + time.Second)]).
Proof.
  apply (@getSigner_nan_refresh (testEnv upstreamOK) nanProxy).
  - vm_compute. reflexivity.
  - now eexists.
Defined.

(** ** More on [copyHeaders] *)

Section HeadersMore.

Implicit Types (h dst src : http.Header) (k : string) (vs : list string).

Lemma lookup_Add k v h k' :
  http.Add k v h !! k' =
  if decide (textproto.CanonicalMIMEHeaderKey k = k')
  then Some (values h k' ++ [v]) else h !! k'.
Proof.
  unfold values, http.Add. cbv zeta.
  destruct (decide (textproto.CanonicalMIMEHeaderKey k = k')) as [<-|Hne].
  - now rewrite lookup_insert_eq.
  - now rewrite lookup_insert_ne.
Qed.

Lemma lookup_Add_all k vs h k' :
  foldl (fun dst v => http.Add k v dst) h vs !! k' =
  if decide (textproto.CanonicalMIMEHeaderKey k = k')
  then match vs with [] => h !! k' | _ => Some (values h k' ++ vs) end
  else h !! k'.
Proof.
  revert h. induction vs as [|v vs IH]; intros h; cbn [foldl].
  - now destruct (decide _).
  - rewrite IH, values_Add, lookup_Add.
    destruct (decide _); [|reflexivity].
    destruct vs; [reflexivity | now rewrite <- app_assoc].
Qed.

(** The entry of a key after the copy: untouched when the visit brings no
    value to the key, and else the old values followed by the new ones. *)
Lemma lookup_copyHeadersIn order dst k' :
  copyHeadersIn order dst !! k' =
  match gathered order k' with
  | [] => dst !! k'
  | added => Some (values dst k' ++ added)
  end.
Proof.
  unfold copyHeadersIn. revert dst.
  induction order as [|[k vs] order IH]; intros dst; cbn [foldl gathered].
  - reflexivity.
  - rewrite IH. cbn [fst snd]. rewrite values_Add_all, lookup_Add_all.
    destruct (decide _) as [Heq|Hne]; [|reflexivity].
    destruct vs as [|v vs]; [now rewrite app_nil_r|].
    cbn [app]. destruct (gathered order k') as [|a added].
    + now rewrite app_nil_r.
    + now rewrite <- app_assoc.
Qed.

Lemma gathered_In order k' v :
  In v (gathered order k') ->
  exists k vs, In (k, vs) order /\
               textproto.CanonicalMIMEHeaderKey k = k' /\ In v vs.
Proof.
  induction order as [|[k vs] order IH]; cbn [gathered]; [intros []|].
  intros Hin. apply in_app_or in Hin as [Hin | Hin].
  - destruct (decide _) as [Heq|_]; [|destruct Hin].
    exists k, vs. split; [now left | now split].
  - destruct (IH Hin) as (k0 & vs0 & H0 & H1 & H2).
    exists k0, vs0. split; [now right | now split].
Qed.

End HeadersMore.

Section CopyHeadersMore.

Context `{Env}.

(** [copyHeaders] only appends: it returns, adds no event, and for every
    key the destination keeps its values, in order, in front of those that
    are added; a key of the destination is never removed; and a value is
    added under a key only if the source has it under a key with that
    canonical form. *)
Theorem copyHeaders_appends (dst src : http.Header) (tr : Trace) :
  exists h,
    copyHeaders dst src tr = (Done h, []) /\
    forall k',
      (exists added,
         values h k' = values dst k' ++ added /\
         (dst !! k' = None -> added = [] -> h !! k' = None) /\
         (forall v, In v added ->
            exists k vs, src !! k = Some vs /\
                         textproto.CanonicalMIMEHeaderKey k = k' /\
                         In v vs)) /\
      (is_Some (dst !! k') -> is_Some (h !! k')).
Proof.
  eexists. split; [reflexivity|]. intros k'.
  pose proof (lookup_copyHeadersIn (rangeOrder tr src) dst k') as Hl.
  split.
  - exists (gathered (rangeOrder tr src) k').
    split; [apply values_copyHeadersIn|]. split.
    + intros Hnone Hnil. now rewrite Hl, Hnil.
    + intros v Hin. apply gathered_In in Hin as (k & vs & Hkv & Hk & Hv).
      exists k, vs. split; [|now split].
      apply elem_of_map_to_list. rewrite <- (rangeOrder_perm tr src).
      now apply list_elem_of_In.
  - intros [old Hold]. rewrite Hl.
    destruct (gathered _ _); [now rewrite Hold | eauto].
Qed.

(** When the keys of the source are canonical, the map [copyHeaders]
    builds does not depend on the order in which the [range] visits the
    source: any two orders give the same map. *)
Theorem copyHeaders_order_irrelevant (dst src : http.Header)
  (order1 order2 : list (string * list string)) :
  (forall k vs, src !! k = Some vs -> textproto.CanonicalMIMEHeaderKey k = k) ->
  order1 ≡ₚ map_to_list src -> order2 ≡ₚ map_to_list src ->
  copyHeadersIn order1 dst = copyHeadersIn order2 dst.
Proof.
  intros Hcanon H1 H2. apply map_eq. intros k'.
  rewrite !lookup_copyHeadersIn.
  now rewrite (gathered_map order1 src k' H1 Hcanon),
              (gathered_map order2 src k' H2 Hcanon).
Qed.

(** Copying into an empty map a source whose keys are canonical gives the
    source back, but for the keys that have no value: these do not
    appear in the copy. *)
Theorem copyHeaders_into_empty (src : http.Header) (tr : Trace) :
  (forall k vs, src !! k = Some vs -> textproto.CanonicalMIMEHeaderKey k = k) ->
  exists h,
    copyHeaders ∅ src tr = (Done h, []) /\
    (forall k, h !! k = match src !! k with
                        | Some (v :: vs) => Some (v :: vs)
                        | _ => None
                        end) /\
    ((forall k, src !! k <> Some []) -> h = src).
Proof.
  intros Hcanon. eexists. split; [reflexivity|].
  assert (Hl : forall k, copyHeadersIn (rangeOrder tr src) ∅ !! k =
                         match src !! k with
                         | Some (v :: vs) => Some (v :: vs)
                         | _ => None
                         end).
  { intros k. rewrite lookup_copyHeadersIn.
    rewrite (gathered_map _ src k (rangeOrder_perm tr src) Hcanon).
    unfold values. rewrite lookup_empty.
    destruct (src !! k) as [[|v vs]|]; reflexivity. }
  split; [exact Hl|].
  intros Hfull. apply map_eq. intros k. rewrite Hl.
  specialize (Hfull k). destruct (src !! k) as [[|v vs]|]; congruence.
Qed.

End CopyHeadersMore.

Lemma copyHeaders_order_irrelevant_witness :
  copyHeadersIn
    [("Content-Type", ["application/json"]); ("Set-Cookie", ["a=1"; "b=2"])]
    {[ "Set-Cookie" := ["z=0"] ]}
  = copyHeadersIn
      [("Set-Cookie", ["a=1"; "b=2"]); ("Content-Type", ["application/json"])]
      {[ "Set-Cookie" := ["z=0"] ]}.
Proof.
  assert (Hl : map_to_list (http.resp_Header okResponse)
               ≡ₚ [("Content-Type", ["application/json"]);
                   ("Set-Cookie", ["a=1"; "b=2"])]).
  { unfold okResponse, http.resp_Header.
    rewrite map_to_list_insert by reflexivity.
    now rewrite map_to_list_singleton. }
  apply (copyHeaders_order_irrelevant _ (http.resp_Header okResponse)).
  - exact okResponse_canonical.
  - now rewrite Hl.
  - rewrite Hl. apply perm_swap.
Defined.

Lemma copyHeaders_into_empty_witness :
  exists h,
    @copyHeaders (testEnv upstreamOK) ∅ (http.resp_Header okResponse) []
    = (Done h, []) /\
    h !! "Set-Cookie" = Some ["a=1"; "b=2"].
Proof.
  destruct (@copyHeaders_into_empty (testEnv upstreamOK)
              (http.resp_Header okResponse) [] okResponse_canonical)
    as (h & Hrun & Hl & _).
  exists h. split; [exact Hrun|]. now rewrite Hl.
Defined.

(** ** More on [replaceBody] *)

(** After [replaceBody] the body can be read again: a second
    [replaceBody] on the request it returns gives the same payload and
    the same request.  The method, the URL, the header, the host and the
    remote address of the request are not touched, and a body that was
    there is replaced by one that delivers the payload without error. *)
Theorem replaceBody_again (req : http.Request) :
  replaceBody (replaceBody req).2 = replaceBody req /\
  http.req_Method (replaceBody req).2 = http.req_Method req /\
  http.req_URL (replaceBody req).2 = http.req_URL req /\
  http.req_Header (replaceBody req).2 = http.req_Header req /\
  http.req_Host (replaceBody req).2 = http.req_Host req /\
  http.req_RemoteAddr (replaceBody req).2 = http.req_RemoteAddr req /\
  (is_Some (http.req_Body req) ->
   http.req_Body (replaceBody req).2
   = Some (io.NewReader (replaceBody req).1)).
Proof.
  unfold replaceBody.
  destruct (http.req_Body req) as [body|] eqn:E; cbn.
  - repeat split; reflexivity.
  - rewrite E. repeat split; try reflexivity. intros [? [=]].
Qed.

(** ** More on [ServeHTTP] *)

Section HandlerMore.

Context `{Env}.

Lemma logRequest_spec (p : proxy) (r : http.Request) (dump : bytes)
  (u : url.URL) (resp : http.Response) (t0 : time.Time) (tr : Trace) :
  logRequest p r dump u resp t0 tr
  = (Done tt, logEvents p r dump u resp t0 tr).
Proof.
  unfold logRequest, logEvents.
  destruct (Verbose p); [|reflexivity].
  cbv [time_Since time_Now bind ret emit]. cbn [app].
  destruct (Prettify p); reflexivity.
Qed.

(** How [ServeHTTP] runs, case by case, with all of its events. *)
Lemma ServeHTTP_trace (p : proxy) (w : http.ResponseWriter)
  (r : http.Request) (tr : Trace) :
  let t0 := clock tr in
  let r' := (httputil_DumpRequest r).2 in
  match http.req_Body r' with
  | None =>
      ServeHTTP p w r tr =
      (Panicked "invalid memory address or nil pointer dereference",
       [EvNow t0])
  | Some body =>
  match http_NewRequest (http.req_Method r') (url_String (endpointOf p r'))
          (Some body) with
  | Err err => ServeHTTP p w r tr = (Done (p, respondError err w), [EvNow t0])
  | Ok req0 =>
  match withKbnVersion r' req0 with
  | None => ServeHTTP p w r tr = (Panicked "index out of range", [EvNow t0])
  | Some req1 =>
  match getSigner p (EvNow t0 :: tr) with
  | (Exit code, ev) => ServeHTTP p w r tr = (Exit code, ev ++ [EvNow t0])
  | (Panicked msg, ev) => ServeHTTP p w r tr = (Panicked msg, ev ++ [EvNow t0])
  | (Done (p1, signer), ev) =>
      let tr1 := ev ++ EvNow t0 :: tr in
      let payload := (replaceBody req1).1 in
      let req2 := (replaceBody req1).2 in
      let t1 := clock tr1 in
      let sign := EvSign req2 payload (Service p1) (Region p1) t1 in
      let req3 :=
        http.set_Header
          (v4_signedHeader signer req2 payload (Service p1) (Region p1) t1)
          req2 in
      let tr2 := sign :: EvNow t1 :: tr1 in
      let sent := roundTrip tr2 req3 in
      let evs := EvDo req3 sent :: sign :: EvNow t1 :: ev ++ [EvNow t0] in
      match sent with
      | Err err =>
          ServeHTTP p w r tr =
          (Done (p1, respondError err w), EvLog (LogText (Error err)) :: evs)
      | Ok resp =>
          let h := copyHeadersIn
                     (rangeOrder (EvDo req3 sent :: tr2) (http.resp_Header resp))
                     (http.rw_Header w) in
          match io.failure (http.resp_Body resp) with
          | Some err =>
              ServeHTTP p w r tr =
              (Exit 1, EvLog (LogText (Error err)) :: evs)
          | None =>
              ServeHTTP p w r tr =
              (Done (p1,
                     http.Write (io.pending (http.resp_Body resp))
                       (http.WriteHeader (http.StatusCode resp)
                          (http.with_Header h w))),
               logEvents p1 r' (dumpOf r) (endpointOf p r') resp t0
                 (EvDo req3 sent :: tr2) ++ evs)
          end
      end
  end end end end.
Proof.
  cbv zeta. remember (ServeHTTP p w r tr) as run eqn:Hrun.
  unfold ServeHTTP, time_Now in Hrun. unfold bind at 1 in Hrun.
  cbn [app] in Hrun. unfold dumpOf.
  destruct (httputil_DumpRequest r) as [dumped r']. cbn [fst snd].
  destruct (http.req_Body r') as [body|]; [|now subst run].
  fold (endpointOf p r') in Hrun.
  destruct (http_NewRequest _ _ _) as [req0|err]; [|now subst run].
  unfold withKbnVersion.
  destruct (http.req_Header r' !! "Kbn-Version") as [[|v0 vals]|].
  1: now subst run.
  all: unfold bind at 1 in Hrun; unfold ret at 1 in Hrun; cbn [app] in Hrun.
  all: match type of Hrun with
       | context [replaceBody ?x] => generalize dependent x; intros req1 Hrun
       end.
  all: unfold bind at 1 in Hrun.
  all: destruct (getSigner p (EvNow (clock tr) :: tr))
         as [[[p1 signer]|code|msg] ev];
       [| subst run; cbn [app]; rewrite ?app_nil_r; reflexivity ..].
  all: cbn [fst snd] in Hrun |- *.
  all: destruct (replaceBody req1) as [payload req2]; cbn [fst snd] in Hrun |- *.
  all: cbv [bind v4_Sign http_Do emit ret copyHeaders log_Fatal log_Print
              os_Exit io.Copy time_Now fst snd] in Hrun;
       cbn [app] in Hrun.
  all: destruct (roundTrip _ _) as [resp|err];
       [| subst run; cbn [app]; now rewrite ?app_nil_r].
  all: destruct (io.failure (http.resp_Body resp)) as [err|];
       [subst run; cbn [app]; now rewrite ?app_nil_r|].
  all: rewrite logRequest_spec in Hrun.
  all: subst run; cbn [app]; rewrite ?app_nil_r, <- ?app_assoc; reflexivity.
Qed.

(** The events of [getSigner], in its three ways to end. *)
Lemma getSigner_events (p : proxy) (tr : Trace) o (ev : Trace) :
  getSigner p tr = (o, ev) ->
  (o = Done (p, v4.NewSigner (Credentials p)) /\ ev = [EvNow (clock tr)]) \/
  (exists c t,
     o = Done (set_Credentials c t p, v4.NewSigner c) /\
     ev = [EvNow t; freshLog; EvNewSession (Ok c); EvNow (clock tr)]) \/
  (exists e,
     session_NewSession (EvNow (clock tr) :: tr) = Err e /\
     o = Panicked (Error e) /\
     ev = [EvNewSession (Err e); EvNow (clock tr)]).
Proof.
  rewrite getSigner_run. cbv zeta.
  destruct (isNil (Credentials p) || _).
  - destruct (session_NewSession _) as [c|e] eqn:E; intros [= <- <-].
    + right. left. now eexists _, _.
    + right. right. now exists e.
  - intros [= <- <-]. now left.
Qed.

Lemma logEvents_dumped (p : proxy) (r : http.Request) (dump : bytes)
  (u : url.URL) (resp : http.Response) (t0 : time.Time) (tr : Trace) :
  logEvents p (httputil_DumpRequest r).2 dump u resp t0 tr
  = logEvents p r dump u resp t0 tr.
Proof.
  destruct (DumpRequest_rest r) as (Hm & _ & _ & Ha).
  unfold logEvents. now rewrite Hm, Ha.
Qed.

(** The same, in terms of the request as it arrived. *)
Lemma ServeHTTP_cases (p : proxy) (w : http.ResponseWriter)
  (r : http.Request) (tr : Trace) :
  let t0 := clock tr in
  match http.req_Body r with
  | None =>
      ServeHTTP p w r tr =
      (Panicked "invalid memory address or nil pointer dereference",
       [EvNow t0])
  | Some body =>
  match http_NewRequest (http.req_Method r) (url_String (endpointOf p r))
          (Some (dumpedBody body)) with
  | Err err => ServeHTTP p w r tr = (Done (p, respondError err w), [EvNow t0])
  | Ok req0 =>
  match withKbnVersion r req0 with
  | None => ServeHTTP p w r tr = (Panicked "index out of range", [EvNow t0])
  | Some req1 =>
  match getSigner p (EvNow t0 :: tr) with
  | (Exit code, ev) => ServeHTTP p w r tr = (Exit code, ev ++ [EvNow t0])
  | (Panicked msg, ev) => ServeHTTP p w r tr = (Panicked msg, ev ++ [EvNow t0])
  | (Done (p1, signer), ev) =>
      let tr1 := ev ++ EvNow t0 :: tr in
      let payload := (replaceBody req1).1 in
      let req2 := (replaceBody req1).2 in
      let t1 := clock tr1 in
      let sign := EvSign req2 payload (Service p1) (Region p1) t1 in
      let req3 :=
        http.set_Header
          (v4_signedHeader signer req2 payload (Service p1) (Region p1) t1)
          req2 in
      let tr2 := sign :: EvNow t1 :: tr1 in
      let sent := roundTrip tr2 req3 in
      let evs := EvDo req3 sent :: sign :: EvNow t1 :: ev ++ [EvNow t0] in
      match sent with
      | Err err =>
          ServeHTTP p w r tr =
          (Done (p1, respondError err w), EvLog (LogText (Error err)) :: evs)
      | Ok resp =>
          let h := copyHeadersIn
                     (rangeOrder (EvDo req3 sent :: tr2) (http.resp_Header resp))
                     (http.rw_Header w) in
          match io.failure (http.resp_Body resp) with
          | Some err =>
              ServeHTTP p w r tr =
              (Exit 1, EvLog (LogText (Error err)) :: evs)
          | None =>
              ServeHTTP p w r tr =
              (Done (p1,
                     http.Write (io.pending (http.resp_Body resp))
                       (http.WriteHeader (http.StatusCode resp)
                          (http.with_Header h w))),
               logEvents p1 r (dumpOf r) (endpointOf p r) resp t0
                 (EvDo req3 sent :: tr2) ++ evs)
          end
      end
  end end end end.
Proof.
  pose proof (ServeHTTP_trace p w r tr) as R. cbv zeta in R |- *.
  pose proof (DumpRequest_body r) as Hbody.
  destruct (DumpRequest_rest r) as (Hm & Hu & Hh & _).
  assert (Hep : endpointOf p (httputil_DumpRequest r).2 = endpointOf p r)
    by (unfold endpointOf; now rewrite Hu).
  assert (Hkbn : forall q, withKbnVersion (httputil_DumpRequest r).2 q
                           = withKbnVersion r q)
    by (intros q; unfold withKbnVersion; now rewrite Hh).
  rewrite Hep, Hm, Hbody in R. clear Hep Hm Hu Hh Hbody.
  destruct (http.req_Body r) as [body|]; cbn [fmap option_fmap option_map] in R;
    [|exact R].
  destruct (http_NewRequest _ _ _) as [req0|err]; [|exact R].
  rewrite Hkbn in R.
  destruct (withKbnVersion r req0) as [req1|]; [|exact R].
  destruct (getSigner p _) as [[[p1 signer]|code|msg] ev]; try exact R.
  destruct (roundTrip _ _) as [resp|err]; [|exact R].
  destruct (io.failure (http.resp_Body resp)); [exact R|].
  now rewrite logEvents_dumped in R.
Qed.

Ltac serve_cases p w r tr R :=
  pose proof (ServeHTTP_cases p w r tr) as R; cbv zeta in R;
  destruct (http.req_Body r) as [?body|] eqn:?Ebody;
  [ destruct (http_NewRequest _ _ _) as [?req0|?err] eqn:?Enew;
    [ destruct (withKbnVersion r _) as [?req1|] eqn:?Ekbn;
      [ destruct (getSigner p _) as [[[?p1 ?signer]|?code|?msg] ?ev] eqn:?Egs;
        [ destruct (roundTrip _ _) as [?resp|?err] eqn:?Esent;
          [ destruct (io.failure (http.resp_Body _)) as [?e|] eqn:?Efail | ]
        | | ]
      | ]
    | ]
  | ].

Ltac signer_events Egs :=
  let Ho := fresh "Ho" in
  destruct (getSigner_events _ _ _ _ Egs)
    as [[Ho ->] | [(?c & ?t & Ho & ->) | (?e & ?He & Ho & ->)]];
  try discriminate Ho.

Lemma withKbnVersion_None (r req : http.Request) :
  withKbnVersion r req = None -> http.req_Header r !! "Kbn-Version" = Some [].
Proof.
  unfold withKbnVersion.
  now destruct (http.req_Header r !! "Kbn-Version") as [[|v0 vals]|].
Qed.

(** When [http.NewRequest] refuses the method or the rewritten URL, the
    handler answers on the writer of the server with status 400 and the
    text of the error, and returns the proxy as it was; it has only read
    the clock once: no credentials are looked up, nothing is signed and
    nothing is sent. *)
Theorem ServeHTTP_request_construction_error (p : proxy) (r : http.Request)
  (tr : Trace) (body : io.Reader) (err : error) :
  http.req_Body r = Some body ->
  http_NewRequest (http.req_Method r) (url_String (endpointOf p r))
    (Some (dumpedBody body)) = Err err ->
  exists w',
    ServeHTTP p http.newResponseWriter r tr
    = (Done (p, w'), [EvNow (clock tr)]) /\
    http.rw_status w' = Some 400 /\
    http.rw_body w' = String.list_byte_of_string (Error err) /\
    http.rw_Header w' = ∅.
Proof.
  intros Hbody Hnew.
  pose proof (ServeHTTP_cases p http.newResponseWriter r tr) as R.
  cbv zeta in R. rewrite Hbody, Hnew in R.
  eexists. split; [exact R|]. now repeat split.
Qed.

(** A method that is not empty and is no token makes [http.NewRequest]
    fail. *)
Lemma NewRequest_invalid_method (method urlStr : string)
  (body : option io.Reader) :
  method <> EmptyString -> http.validMethod method = false ->
  http_NewRequest method urlStr body
  = Err (errors_New ("net/http: invalid method " +:+ method)).
Proof.
  intros Hne Hinvalid. unfold http_NewRequest.
  destruct (String.eqb_spec method EmptyString); [contradiction|].
  now rewrite Hinvalid.
Qed.

(** A request with a nil body, and a request whose header has the key
    [Kbn-Version] with no value, make the handler panic when it has only
    read the clock once: no reply is written, no credentials are looked
    up, nothing is signed and nothing is sent. *)
Theorem ServeHTTP_early_panics (p : proxy) (w : http.ResponseWriter)
  (r : http.Request) (tr : Trace) :
  (http.req_Body r = None ->
   ServeHTTP p w r tr =
   (Panicked "invalid memory address or nil pointer dereference",
    [EvNow (clock tr)])) /\
  (forall body req0,
     http.req_Body r = Some body ->
     http_NewRequest (http.req_Method r) (url_String (endpointOf p r))
       (Some (dumpedBody body)) = Ok req0 ->
     http.req_Header r !! "Kbn-Version" = Some [] ->
     ServeHTTP p w r tr = (Panicked "index out of range", [EvNow (clock tr)])).
Proof.
  pose proof (ServeHTTP_cases p w r tr) as R. cbv zeta in R. split.
  - intros Hnil. now rewrite Hnil in R.
  - intros body req0 Hbody Hnew Hkbn. rewrite Hbody, Hnew in R.
    unfold withKbnVersion in R. now rewrite Hkbn in R.
Qed.

(** When credentials have to be looked up (none cached, or the interval
    exceeded) and the session cannot be set up, the handler panics with
    the text of that error: it has read the clock twice and made the one
    lookup; no reply is written, nothing is signed and nothing is sent. *)
Theorem ServeHTTP_credential_failure (p : proxy) (w : http.ResponseWriter)
  (r : http.Request) (tr : Trace) (body : io.Reader)
  (req0 req1 : http.Request) (e : error) :
  let t0 := clock tr in
  let now := clock (EvNow t0 :: tr) in
  http.req_Body r = Some body ->
  http_NewRequest (http.req_Method r) (url_String (endpointOf p r))
    (Some (dumpedBody body)) = Ok req0 ->
  withKbnVersion r req0 = Some req1 ->
  Credentials p = None \/
  (Refresh p <? time.Seconds (time.Sub now (CredentialsLastUpped p)))%float
  = true ->
  session_NewSession (EvNow now :: EvNow t0 :: tr) = Err e ->
  ServeHTTP p w r tr =
  (Panicked (Error e), [EvNewSession (Err e); EvNow now; EvNow t0]).
Proof.
  cbv zeta. intros Hbody Hnew Hkbn Hstale Hsession.
  pose proof (ServeHTTP_cases p w r tr) as R. cbv zeta in R.
  rewrite Hbody, Hnew, Hkbn, getSigner_run in R. cbv zeta in R.
  assert (Hcond : isNil (Credentials p)
                  || (Refresh p <? time.Seconds
                        (time.Sub (clock (EvNow (clock tr) :: tr))
                           (CredentialsLastUpped p)))%float = true).
  { destruct Hstale as [-> | ->]; [reflexivity | apply orb_true_r]. }
  rewrite Hcond, Hsession in R. exact R.
Qed.

(** The handler panics in three situations only: a nil body, the key
    [Kbn-Version] without a value, and a session that cannot be set up
    (the panic then carries the text of that error).  A handler that
    panics has signed nothing and sent nothing. *)
Theorem ServeHTTP_panics_only_if (p : proxy) (w : http.ResponseWriter)
  (r : http.Request) (tr : Trace) (msg : string) (new : Trace) :
  ServeHTTP p w r tr = (Panicked msg, new) ->
  signatures new = 0%nat /\ roundTrips new = [] /\
  (http.req_Body r = None \/
   http.req_Header r !! "Kbn-Version" = Some [] \/
   exists e, In (EvNewSession (Err e)) new /\ msg = Error e).
Proof.
  intros Hrun. serve_cases p w r tr R; rewrite R in Hrun;
    try discriminate Hrun; injection Hrun as <- <-.
  - signer_events Egs. injection Ho as ->.
    split; [reflexivity|]. split; [reflexivity|].
    right. right. exists e. split; [now left | reflexivity].
  - split; [reflexivity|]. split; [reflexivity|].
    right. left. now apply withKbnVersion_None in Ekbn.
  - split; [reflexivity|]. split; [reflexivity|]. now left.
Qed.

(** The handler ends the process in one situation only, with status 1:
    the round trip gave a response and reading its body failed; the last
    thing it did was to log that error. *)
Theorem ServeHTTP_exits_only_on_copy_failure (p : proxy)
  (w : http.ResponseWriter) (r : http.Request) (tr : Trace) (code : Z)
  (new : Trace) :
  ServeHTTP p w r tr = (Exit code, new) ->
  code = 1 /\
  exists req resp e rest,
    new = EvLog (LogText (Error e)) :: EvDo req (Ok resp) :: rest /\
    io.failure (http.resp_Body resp) = Some e.
Proof.
  intros Hrun. serve_cases p w r tr R; rewrite R in Hrun;
    try discriminate Hrun.
  - injection Hrun as <- <-. split; [reflexivity|].
    now eexists _, resp, e, _.
  - now apply getSigner_no_exit in Egs.
Qed.

(** One request costs at most one credential lookup, one signature and
    one round trip: nothing is retried, and what is signed is sent. *)
Theorem ServeHTTP_no_retry (p : proxy) (w : http.ResponseWriter)
  (r : http.Request) (tr : Trace) out (new : Trace) :
  ServeHTTP p w r tr = (out, new) ->
  (fetches new <= 1)%nat /\ (signatures new <= 1)%nat /\
  length (roundTrips new) = signatures new.
Proof.
  intros Hrun. serve_cases p w r tr R; rewrite R in Hrun;
    injection Hrun as <- <-;
    try (now apply getSigner_no_exit in Egs);
    try signer_events Egs;
    unfold logEvents;
    try destruct (Verbose _); try destruct (Prettify _);
    cbn; repeat split; lia.
Qed.

(** Every reply the handler returns on the writer of the server is of
    one of two kinds: status 400 with the text of an error, when
    [http.NewRequest] failed (nothing was sent) or when the round trip
    failed; or the status and the body of the response of the one round
    trip. *)
Theorem ServeHTTP_reply_kinds (p p1 : proxy) (r : http.Request) (tr : Trace)
  (w' : http.ResponseWriter) (new : Trace) :
  ServeHTTP p http.newResponseWriter r tr = (Done (p1, w'), new) ->
  (exists err,
     http.rw_status w' = Some 400 /\
     http.rw_body w' = String.list_byte_of_string (Error err) /\
     http.rw_Header w' = ∅ /\
     (roundTrips new = [] \/ exists req, roundTrips new = [(req, Err err)])) \/
  (exists req resp,
     roundTrips new = [(req, Ok resp)] /\
     io.failure (http.resp_Body resp) = None /\
     http.rw_status w' = Some (http.StatusCode resp) /\
     http.rw_body w' = io.pending (http.resp_Body resp)).
Proof.
  intros Hrun. serve_cases p http.newResponseWriter r tr R;
    rewrite R in Hrun; try discriminate Hrun;
    injection Hrun as <- <- <-.
  - right. eexists _, resp. split; [|now repeat split].
    signer_events Egs; unfold logEvents;
      destruct (Verbose _); try destruct (Prettify _); reflexivity.
  - left. exists err. split; [reflexivity|]. split; [reflexivity|].
    split; [reflexivity|]. right. eexists.
    signer_events Egs; reflexivity.
  - left. exists err. split; [reflexivity|]. split; [reflexivity|].
    split; [reflexivity|]. now left.
Qed.

(** The handler never changes what [main] and [parseEndpoint] have set in
    the proxy: scheme, host, region, service, the two flags and the
    refresh interval are the same after a request as before. *)
Lemma ServeHTTP_keeps_config (p p1 : proxy) (w w' : http.ResponseWriter)
  (r : http.Request) (tr new : Trace) :
  ServeHTTP p w r tr = (Done (p1, w'), new) -> config p1 = config p.
Proof.
  intros Hrun. serve_cases p w r tr R; rewrite R in Hrun;
    try discriminate Hrun; injection Hrun as <- <- <-;
    try reflexivity; now apply getSigner_config in Egs.
Qed.

(** However many requests are served, and however they end, the settings
    of the proxy stay those it started with; and as long as the process
    does not exit, every request gets its reply or its abort. *)
Theorem ListenAndServe_keeps_config (inbound : list http.Request) (p : proxy)
  (tr : Trace) (replies : list Reply) (p' : proxy) (new : Trace) :
  ListenAndServe p inbound tr = (replies, Done p', new) ->
  config p' = config p /\ length replies = length inbound.
Proof.
  revert p tr replies new.
  induction inbound as [|r rest IH]; intros p tr replies new Hrun.
  - cbn in Hrun. now injection Hrun as <- <- <-.
  - cbn [ListenAndServe] in Hrun.
    destruct (ServeHTTP p http.newResponseWriter r tr)
      as [[[p1 w']|code|msg] ev] eqn:Eserve.
    + destruct (ListenAndServe p1 rest (ev ++ tr)) as [[rs o] ev'] eqn:Erest.
      injection Hrun as <- -> <-.
      destruct (IH _ _ _ _ Erest) as [Hc Hl]. split.
      * rewrite Hc. now apply ServeHTTP_keeps_config in Eserve.
      * cbn. now rewrite Hl.
    + discriminate.
    + destruct (ListenAndServe p rest (ev ++ tr)) as [[rs o] ev'] eqn:Erest.
      injection Hrun as <- -> <-.
      destruct (IH _ _ _ _ Erest) as [Hc Hl]. split; [exact Hc|].
      cbn. now rewrite Hl.
Qed.

Lemma dumpOf_failed (r : http.Request) (body : io.Reader) (e : error) :
  http.req_Body r = Some body -> io.failure body = Some e -> dumpOf r = [].
Proof.
  intros Hbody Hfail. unfold dumpOf, httputil_DumpRequest, io.ReadAll.
  now rewrite Hbody, Hfail.
Qed.

(** What is logged of a request.  A request line is logged only in
    verbose mode and only for a request whose response was relayed: it
    has the inbound method and remote address, the request URI of the
    rewritten URL, the query summary of the dump and the status of the
    response.  With [pretty] the block printed has the same fields, and
    the summary re-indented as JSON.  When the inbound body could not be
    read there is no dump, and the summary is empty. *)
Theorem ServeHTTP_request_log (p : proxy) (w : http.ResponseWriter)
  (r : http.Request) (tr : Trace) out (new : Trace) :
  ServeHTTP p w r tr = (out, new) ->
  (forall m ra uri q st took,
     In (EvLog (LogRequest m ra uri q st took)) new ->
     Verbose p = true /\ Prettify p = false /\
     m = http.req_Method r /\ ra = http.req_RemoteAddr r /\
     uri = url_RequestURI (endpointOf p r) /\
     q = extractQuery (dumpOf r) /\
     exists req resp,
       roundTrips new = [(req, Ok resp)] /\ st = http.StatusCode resp) /\
  (forall t ra uri m st took b,
     In (EvLog (PrintBlock t ra uri m st took b)) new ->
     Verbose p = true /\ Prettify p = true /\
     m = http.req_Method r /\ ra = http.req_RemoteAddr r /\
     uri = url_RequestURI (endpointOf p r) /\
     b = json_Indent (String.list_byte_of_string (extractQuery (dumpOf r))) /\
     exists req resp,
       roundTrips new = [(req, Ok resp)] /\ st = http.StatusCode resp) /\
  (forall req resp,
     roundTrips new = [(req, Ok resp)] ->
     io.failure (http.resp_Body resp) = None ->
     Verbose p = true ->
     if Prettify p
     then exists t took,
         head new = Some (EvLog (PrintBlock t (http.req_RemoteAddr r)
                                   (url_RequestURI (endpointOf p r))
                                   (http.req_Method r) (http.StatusCode resp)
                                   took
                                   (json_Indent
                                      (String.list_byte_of_string
                                         (extractQuery (dumpOf r))))))
     else exists took,
         head new = Some (EvLog (LogRequest (http.req_Method r)
                                   (http.req_RemoteAddr r)
                                   (url_RequestURI (endpointOf p r))
                                   (extractQuery (dumpOf r))
                                   (http.StatusCode resp) took))) /\
  (forall body e,
     http.req_Body r = Some body -> io.failure body = Some e ->
     extractQuery (dumpOf r) = EmptyString).
Proof.
  intros Hrun.
  assert (Hlast : forall body e,
             http.req_Body r = Some body -> io.failure body = Some e ->
             extractQuery (dumpOf r) = EmptyString).
  { intros body e Hbody Hfail. now rewrite (dumpOf_failed r body e). }
  assert (Hplain :
    (forall e, In e new ->
       match e with
       | EvLog (LogRequest _ _ _ _ _ _) | EvLog (PrintBlock _ _ _ _ _ _ _) =>
           False
       | _ => True
       end) ->
    (forall req resp, roundTrips new = [(req, Ok resp)] ->
       io.failure (http.resp_Body resp) <> None) ->
    (forall m ra uri q st took,
       In (EvLog (LogRequest m ra uri q st took)) new ->
       Verbose p = true /\ Prettify p = false /\
       m = http.req_Method r /\ ra = http.req_RemoteAddr r /\
       uri = url_RequestURI (endpointOf p r) /\
       q = extractQuery (dumpOf r) /\
       exists req resp,
         roundTrips new = [(req, Ok resp)] /\ st = http.StatusCode resp) /\
    (forall t ra uri m st took b,
       In (EvLog (PrintBlock t ra uri m st took b)) new ->
       Verbose p = true /\ Prettify p = true /\
       m = http.req_Method r /\ ra = http.req_RemoteAddr r /\
       uri = url_RequestURI (endpointOf p r) /\
       b = json_Indent (String.list_byte_of_string (extractQuery (dumpOf r))) /\
       exists req resp,
         roundTrips new = [(req, Ok resp)] /\ st = http.StatusCode resp) /\
    (forall req resp,
       roundTrips new = [(req, Ok resp)] ->
       io.failure (http.resp_Body resp) = None ->
       Verbose p = true ->
       if Prettify p
       then exists t took,
           head new = Some (EvLog (PrintBlock t (http.req_RemoteAddr r)
                                     (url_RequestURI (endpointOf p r))
                                     (http.req_Method r) (http.StatusCode resp)
                                     took
                                     (json_Indent
                                        (String.list_byte_of_string
                                           (extractQuery (dumpOf r))))))
       else exists took,
           head new = Some (EvLog (LogRequest (http.req_Method r)
                                     (http.req_RemoteAddr r)
                                     (url_RequestURI (endpointOf p r))
                                     (extractQuery (dumpOf r))
                                     (http.StatusCode resp) took))) /\
    (forall body e,
       http.req_Body r = Some body -> io.failure body = Some e ->
       extractQuery (dumpOf r) = EmptyString)).
  { intros Hall Hrt. split; [|split; [|split; [|exact Hlast]]].
    - intros m ra uri q st took Hin. destruct (Hall _ Hin).
    - intros t ra uri m st took b Hin. destruct (Hall _ Hin).
    - intros req resp Hone Hnone. now destruct (Hrt _ _ Hone). }
  serve_cases p w r tr R; rewrite R in Hrun; injection Hrun as <- <-;
    try (now apply getSigner_no_exit in Egs).
  - (* the copy of the body failed *)
    apply Hplain.
    + signer_events Egs; intros x Hin; cbn in Hin;
        repeat (destruct Hin as [<- | Hin]; [exact I|]); destruct Hin.
    + intros req resp' Hone. signer_events Egs; cbn in Hone;
        injection Hone as _ <-; congruence.
  - (* the response was relayed *)
    clear Hplain.
    assert (Hcfg := proj1 (getSigner_config _ _ _ _ _ Egs)).
    injection Hcfg as _ _ _ _ Hv Hp _.
    unfold logEvents. rewrite Hv, Hp.
    split; [|split; [|split; [|exact Hlast]]].
    + intros m ra uri q st took Hin.
      destruct (Verbose p), (Prettify p); signer_events Egs;
        cbn [In app] in Hin;
        repeat (destruct Hin as [Hin | Hin]; [try discriminate Hin|]);
        try contradiction;
        injection Hin as <- <- <- <- <- <-;
        (repeat split; try reflexivity); now eexists _, _.
    + intros t' ra uri m st took b Hin.
      destruct (Verbose p), (Prettify p); signer_events Egs;
        cbn [In app] in Hin;
        repeat (destruct Hin as [Hin | Hin]; [try discriminate Hin|]);
        try contradiction;
        injection Hin as <- <- <- <- <- <- <-;
        (repeat split; try reflexivity); now eexists _, _.
    + intros req resp' Hone _ Hverb. rewrite Hverb in *.
      destruct (Prettify p); signer_events Egs; cbn in Hone |- *;
        injection Hone as _ <-; eexists; try eexists; reflexivity.
  - (* the round trip failed *)
    apply Hplain.
    + signer_events Egs; intros x Hin; cbn in Hin;
        repeat (destruct Hin as [<- | Hin]; [exact I|]); destruct Hin.
    + intros req resp' Hone. signer_events Egs; cbn in Hone; discriminate.
  - (* no signer *)
    apply Hplain.
    + signer_events Egs; intros x Hin; cbn in Hin;
        repeat (destruct Hin as [<- | Hin]; [exact I|]); destruct Hin.
    + intros req resp' Hone. signer_events Egs; cbn in Hone; discriminate.
  - apply Hplain.
    + intros x [<- | []]. exact I.
    + intros req resp' Hone. discriminate.
  - apply Hplain.
    + intros x [<- | []]. exact I.
    + intros req resp' Hone. discriminate.
  - apply Hplain.
    + intros x [<- | []]. exact I.
    + intros req resp' Hone. discriminate.
Qed.

End HandlerMore.

(** ** More on [main] *)

Section MainMore.

Context `{Env}.


(** With at least three words on the command line and an endpoint whose
    host has five labels, [main] announces the listen address and then
    serves the requests with a proxy that has the flags [verbose] and
    [pretty] and the refresh interval of the command line, the scheme and
    the host of the endpoint, and no credentials yet. *)
Theorem main_serves (os_Args : list string) (fl : Flags)
  (inbound : list http.Request) (tr : Trace) (link : url.URL) :
  (3 <= length os_Args)%nat ->
  url_Parse (endpoint fl) = Ok link ->
  length (strings.Split (url.Host link) ".") = 5%nat ->
  exists p0,
    config p0 =
      (scheme (url.Scheme link), url.Host link, Region p0, Service p0,
       verbose fl, prettify fl, refresh fl) /\
    Credentials p0 = None /\
    main os_Args fl inbound tr =
    (let listening := EvLog (LogText ("Listening on " +:+ listenAddress fl)) in
     let '(replies, o, new) := ListenAndServe p0 inbound (listening :: tr) in
     (replies, o, new ++ [listening])).
Proof.
  intros Hargs Hparse Hlen. unfold main.
  destruct (Nat.ltb_spec (length os_Args) 3) as [Hlt|_]; [lia|].
  unfold bind at 1.
  match goal with
  | |- context [parseEndpoint (endpoint fl) ?mux tr] =>
      pose proof (parseEndpoint_run (endpoint fl) mux tr) as R;
      set (p0 := mux) in *
  end.
  rewrite Hparse in R. cbv zeta in R.
  destruct (String.eqb_spec (url.Host link) EmptyString) as [Hhost|_].
  { rewrite Hhost in Hlen. discriminate. }
  rewrite Hlen in R. cbn [Nat.eqb] in R. rewrite R.
  match type of R with _ = (Done ?q, _) => exists q end.
  split; [|split]; [reflexivity | reflexivity |].
  cbv [bind log_Print emit ret]. cbn [app].
  destruct (ListenAndServe _ inbound _) as [[replies o] new].
  reflexivity.
Qed.

End MainMore.


Lemma main_serves_witness :
  exists p0,
    Credentials p0 = None /\ Verbose p0 = true /\
    Host p0 = "foo.eu-west-1.es.amazonaws.com" /\
    @main (testEnv upstreamOK)
      ["aws-es-proxy"; "-endpoint"; "https://foo.eu-west-1.es.amazonaws.com"]
      {| endpoint := "https://foo.eu-west-1.es.amazonaws.com";
         listenAddress := "127.0.0.1:9200"; verbose := true;
         prettify := false; refresh := 120%float |}
      [searchRequest] []
    = (let listening := EvLog (LogText "Listening on 127.0.0.1:9200") in
       let '(replies, o, new) :=
         @ListenAndServe (testEnv upstreamOK) p0 [searchRequest] [listening] in
       (replies, o, new ++ [listening])).
Proof.
  destruct (@main_serves (testEnv upstreamOK)
              ["aws-es-proxy"; "-endpoint";
               "https://foo.eu-west-1.es.amazonaws.com"]
              {| endpoint := "https://foo.eu-west-1.es.amazonaws.com";
                 listenAddress := "127.0.0.1:9200"; verbose := true;
                 prettify := false; refresh := 120%float |}
              [searchRequest] [] _ ltac:(cbn; lia) eq_refl eq_refl)
    as (p0 & Hcfg & Hcred & Hmain).
  exists p0.
  pose proof (f_equal (fun c => c.1.1.2) Hcfg) as Hverb.
  pose proof (f_equal (fun c => c.1.1.1.1.1.2) Hcfg) as Hhost.
  cbn in Hverb, Hhost.
  split; [exact Hcred|]. split; [exact Hverb|]. split; [exact Hhost|].
  exact Hmain.
Defined.

(** ** More on the query summary *)

Section QuerySummaryMore.

Local Arguments String.append !_ _.

Lemma Contains_trans (s t u : string) :
  Contains s t -> Contains t u -> Contains s u.
Proof.
  intros (pre & post & ->) (pre' & post' & ->).
  exists (pre +:+ pre'), (post' +:+ post).
  now rewrite !append_assoc.
Qed.

(** What the brace pattern finds is a span of the input between an
    opening and a closing brace. *)
Lemma find_regex_shape (s m : string) :
  regexp.find regex s = Some m ->
  Contains s m /\ exists mid, m = String "{" (mid +:+ "}").
Proof.
  induction s as [|c t IH]; cbn [regexp.find]; rewrite run_regex;
    [discriminate|].
  assert (Htail : regexp.find regex t = Some m ->
                  Contains (String c t) m /\
                  exists mid, m = String "{" (mid +:+ "}")).
  { intros Hm. destruct (IH Hm) as [(pre & post & ->) Hshape].
    split; [now exists (String c pre), post | exact Hshape]. }
  destruct (Ascii.eqb_spec c "{") as [->|_]; [|exact Htail].
  destruct (greedy closeBrace t) as [rest|] eqn:E; [|exact Htail].
  apply greedy_close_inv in E as [mid ->].
  replace (String "{" (mid +:+ String "}" rest))
    with ((String "{" (mid +:+ "}")) +:+ rest)
    by (simpl; f_equal; now rewrite append_assoc).
  rewrite substring_match. intros [= <-]. split.
  - now exists EmptyString, rest.
  - now exists mid.
Qed.

(** The query summary is empty, or it starts with an opening brace and
    ends with a closing one.  It has no newline, it is a span of the dump
    once the newlines of the dump are blanks, and neither [_msearch] nor
    [_bulk] occurs in it. *)
Theorem extractQuery_shape (dump : bytes) :
  (extractQuery dump = EmptyString \/
   exists mid, extractQuery dump = String "{" (mid +:+ "}")) /\
  occurs regexp.newline (extractQuery dump) = false /\
  Contains (normalize (String.string_of_list_byte dump)) (extractQuery dump) /\
  ~ Contains (extractQuery dump) "_msearch" /\
  ~ Contains (extractQuery dump) "_bulk".
Proof.
  assert (Hspan0 : forall s, Contains s EmptyString)
    by (intros s0; now exists EmptyString, s0).
  assert (Hnone : forall m, m <> EmptyString -> ~ Contains EmptyString m).
  { intros m Hm (pre & post & Heq). destruct pre, m; try discriminate.
    now destruct Hm. }
  destruct (containsb (text dump) marker1 || containsb (text dump) marker2)
    eqn:Emark.
  - assert (Hq : extractQuery dump = EmptyString).
    { apply extractQuery_marker. apply orb_true_iff in Emark.
      now rewrite <- !containsb_spec. }
    rewrite Hq. split; [now left|]. split; [reflexivity|].
    split; [apply Hspan0|]. split; apply Hnone; discriminate.
  - apply orb_false_iff in Emark as [E1 E2].
    assert (H1 : ~ Contains (text dump) marker1)
      by (rewrite <- containsb_spec; congruence).
    assert (H2 : ~ Contains (text dump) marker2)
      by (rewrite <- containsb_spec; congruence).
    rewrite (extractQuery_no_marker dump H1 H2).
    destruct (regexp.find regex (normalize (text dump))) as [m|] eqn:E;
      cbn [default].
    + apply find_regex_shape in E as [Hspan Hshape].
      split; [now right|]. split.
      { destruct Hspan as (pre & post & Heq).
        pose proof (normalize_no_newline (text dump)) as Hnl.
        rewrite Heq, !occurs_append in Hnl.
        apply orb_false_iff in Hnl as [_ Hnl].
        now apply orb_false_iff in Hnl as [Hnl _]. }
      split; [exact Hspan|].
      split; intros Hm; apply (Contains_trans _ _ _ Hspan) in Hm.
      * apply (proj1 (Contains_normalize (text dump) marker1
                        eq_refl eq_refl)) in Hm.
        exact (H1 Hm).
      * apply (proj1 (Contains_normalize (text dump) marker2
                        eq_refl eq_refl)) in Hm.
        exact (H2 Hm).
    + split; [now left|]. split; [reflexivity|].
      split; [apply Hspan0|]. split; apply Hnone; discriminate.
Qed.

End QuerySummaryMore.

(** ** The further properties of the handler, in the test environment *)

Lemma ServeHTTP_request_construction_error_witness :
  exists w',
    @ServeHTTP (testEnv upstreamOK) testProxy http.newResponseWriter
      badMethodRequest [] = (Done (testProxy, w'), [EvNow testenv.epoch]) /\
    http.rw_status w' = Some 400 /\
    http.rw_body w'
    = String.list_byte_of_string "net/http: invalid method PO ST".
Proof.
  destruct (@ServeHTTP_request_construction_error (testEnv upstreamOK)
              testProxy badMethodRequest [] _ _ eq_refl eq_refl)
    as (w' & Hrun & Hstatus & Hbody & _).
  exists w'. split; [exact Hrun|]. split; [exact Hstatus | exact Hbody].
Defined.

Lemma ServeHTTP_early_panics_witness :
  @ServeHTTP (testEnv upstreamOK) testProxy http.newResponseWriter
    nilBodyRequest []
  = (Panicked "invalid memory address or nil pointer dereference",
     [EvNow testenv.epoch]) /\
  @ServeHTTP (testEnv upstreamOK) testProxy http.newResponseWriter
    noValueRequest []
  = (Panicked "index out of range", [EvNow testenv.epoch]).
Proof.
  split.
  - exact (proj1 (@ServeHTTP_early_panics (testEnv upstreamOK) testProxy
                    http.newResponseWriter nilBodyRequest []) eq_refl).
  - exact (proj2 (@ServeHTTP_early_panics (testEnv upstreamOK) testProxy
                    http.newResponseWriter noValueRequest [])
             _ _ eq_refl eq_refl eq_refl).
Defined.

Lemma ServeHTTP_credential_failure_witness :
  (@ServeHTTP noCredentialsEnv testProxy http.newResponseWriter
     searchRequest []).1 = Panicked (Error noCredentials).
Proof.
  now rewrite (@ServeHTTP_credential_failure noCredentialsEnv testProxy
                 http.newResponseWriter searchRequest [] _ _ _ noCredentials
                 eq_refl eq_refl eq_refl (or_introl eq_refl) eq_refl).
Defined.

Lemma ServeHTTP_panics_only_if_witness :
  roundTrips (@ServeHTTP noCredentialsEnv testProxy http.newResponseWriter
                searchRequest []).2 = [].
Proof.
  set (run := @ServeHTTP noCredentialsEnv testProxy http.newResponseWriter
                searchRequest []).
  assert (Hrun : run = (Panicked (Error noCredentials), run.2))
    by (vm_compute; reflexivity).
  exact (proj1 (proj2 (@ServeHTTP_panics_only_if noCredentialsEnv testProxy
                         http.newResponseWriter searchRequest []
                         (Error noCredentials) run.2 Hrun))).
Defined.

Lemma ServeHTTP_exits_only_on_copy_failure_witness :
  exists req resp e rest,
    (@ServeHTTP (testEnv upstreamBroken) testProxy http.newResponseWriter
       searchRequest []).2
    = EvLog (LogText (Error e)) :: EvDo req (Ok resp) :: rest /\
    io.failure (http.resp_Body resp) = Some e.
Proof.
  set (run := @ServeHTTP (testEnv upstreamBroken) testProxy
                http.newResponseWriter searchRequest []).
  assert (Hrun : run = (Exit 1, run.2)) by (vm_compute; reflexivity).
  exact (proj2 (@ServeHTTP_exits_only_on_copy_failure
                  (testEnv upstreamBroken) testProxy http.newResponseWriter
                  searchRequest [] 1 run.2 Hrun)).
Defined.

Lemma ServeHTTP_no_retry_witness :
  (fetches (@ServeHTTP (testEnv upstreamOK) testProxy http.newResponseWriter
              searchRequest []).2 <= 1)%nat /\
  (signatures (@ServeHTTP (testEnv upstreamOK) testProxy
                 http.newResponseWriter searchRequest []).2 <= 1)%nat.
Proof.
  set (run := @ServeHTTP (testEnv upstreamOK) testProxy
                http.newResponseWriter searchRequest []).
  assert (Hrun : run = (run.1, run.2)) by (destruct run; reflexivity).
  destruct (@ServeHTTP_no_retry (testEnv upstreamOK) testProxy
              http.newResponseWriter searchRequest [] run.1 run.2 Hrun)
    as (Hf & Hs & _).
  split; [exact Hf | exact Hs].
Defined.

Lemma ServeHTTP_reply_kinds_witness :
  exists p1 w',
    (@ServeHTTP (testEnv upstreamDown) testProxy http.newResponseWriter
       searchRequest []).1 = Done (p1, w') /\
    (http.rw_status w' = Some 400 \/
     exists req resp,
       roundTrips (@ServeHTTP (testEnv upstreamDown) testProxy
                     http.newResponseWriter searchRequest []).2
       = [(req, Ok resp)]).
Proof.
  set (run := @ServeHTTP (testEnv upstreamDown) testProxy
                http.newResponseWriter searchRequest []).
  assert (Hd : exists pw, run.1 = Done pw)
    by (vm_compute; eexists; reflexivity).
  destruct Hd as [[p1 w'] Hd].
  assert (Hrun : run = (Done (p1, w'), run.2))
    by (rewrite <- Hd; destruct run; reflexivity).
  exists p1, w'. split; [exact Hd|].
  destruct (@ServeHTTP_reply_kinds (testEnv upstreamDown) testProxy p1
              searchRequest [] w' run.2 Hrun)
    as [(err & Hs & _) | (req & resp & Hone & _)].
  - now left.
  - right. now exists req, resp.
Defined.

Lemma ListenAndServe_keeps_config_witness :
  exists replies p' new,
    @ListenAndServe (testEnv upstreamOK) testProxy
      [searchRequest; badMethodRequest; nilBodyRequest] []
    = (replies, Done p', new) /\
    config p' = config testProxy /\ length replies = 3%nat.
Proof.
  set (run := @ListenAndServe (testEnv upstreamOK) testProxy
                [searchRequest; badMethodRequest; nilBodyRequest] []).
  assert (Hd : exists p', run.1.2 = Done p')
    by (vm_compute; eexists; reflexivity).
  destruct Hd as [p' Hd].
  assert (Hrun : run = (run.1.1, Done p', run.2))
    by (rewrite <- Hd; destruct run as [[? ?] ?]; reflexivity).
  exists run.1.1, p', run.2. split; [exact Hrun|].
  exact (@ListenAndServe_keeps_config (testEnv upstreamOK) _ testProxy []
           run.1.1 p' run.2 Hrun).
Defined.

Lemma ServeHTTP_request_log_witness :
  exists took,
    head (@ServeHTTP (testEnv upstreamOK) testProxy http.newResponseWriter
            searchRequest []).2
    = Some (EvLog (LogRequest "POST" "127.0.0.1:50000" "/idx/_search?pretty"
                     "{q}" 201 took)).
Proof.
  set (run := @ServeHTTP (testEnv upstreamOK) testProxy
                http.newResponseWriter searchRequest []).
  assert (Hrun : run = (run.1, run.2)) by (destruct run; reflexivity).
  assert (Hone : roundTrips run.2
                 = [(default searchRequest (sentRequest run.2), Ok okResponse)])
    by (vm_compute; reflexivity).
  destruct (@ServeHTTP_request_log (testEnv upstreamOK) testProxy
              http.newResponseWriter searchRequest [] run.1 run.2 Hrun)
    as (_ & _ & Hlog & _).
  destruct (Hlog _ _ Hone eq_refl eq_refl) as [took Hhead].
  exists took. rewrite Hhead. vm_compute. reflexivity.
Defined.
